(** * Payment reconciliation of the Razorpay MERN backend

    A shallow embedding of the payment controller
    (server/controllers/payment.controller.js) over the repository's
    payment model (models/payment.model.js), of the signature helpers
    (config/razorpay.js, utils/razorpayUtils.js), of the model methods and
    of the validators, with the properties of the reconciliation logic
    stated over it.

    Modelling conventions.
    - The document store is the pair of collections the controller talks
      to.  A collection is a list in insertion order; [findOne] and
      [findOneAndUpdate] act on the first document that matches the
      filter, [save] writes a document back at the position it was read
      from.  A field that is not set is [None] (JavaScript [undefined]).
    - A Payment document carries the paths of the payment schema and the
      two fields the controller filters on, [paymentId] and [orderId].
      The schema has neither path and is strict, so a document written
      through the payment model has neither field.  Three consequences
      are part of the model: an upsert whose filter names [paymentId] is
      refused; [Payment.create] of the object [verifyPayment] builds is
      rejected by validation, the required paths [user], [order] and
      [razorpayOrderId] not being among its keys; [save] validates, so a
      gateway refund pushed onto [refunds] (no [razorpayRefundId]) and a
      status outside the enum are rejected.
    - An [async] function that may [throw] is a computation over the store
      that ends in [Returned] or [Thrown] with the error's message; writes
      made before a [throw] stay.  The message of an error raised by Node
      or Mongoose is a stand-in for the library's text; no statement
      speaks about it.
    - The gateway SDK ([razorpayInstance]) is a pair of lookup functions
      whose promises resolve or reject.
    - HMAC-SHA256 with hex digest (Node's [crypto]) and [JSON.stringify]
      are parameters of the development.
    - Gateway amounts are integers (paise).  The numbers the controller
      computes with are IEEE 754 binary64 values with the operations of
      the standard library's [SpecFloat]. *)

From Stdlib Require Import Ascii String ZArith QArith Qround Permutation.
From Stdlib Require SpecFloat.
From stdpp Require Import base option list strings gmap pretty.

Open Scope string_scope.
Open Scope Z_scope.
Open Scope list_scope.

(** ** Numbers *)

Module Number.

(** A JavaScript number: a binary64 value. *)
Definition t : Type := SpecFloat.spec_float.

Definition prec : Z := 53.
Definition emax : Z := 1024.

(** The number an integer literal or an integer of the gateway denotes. *)
Definition of_Z (z : Z) : t := SpecFloat.binary_normalize prec emax z 0 false.

(** [a + b], [a * b], [a / b] *)
Definition add (a b : t) : t := SpecFloat.SFadd prec emax a b.
Definition mul (a b : t) : t := SpecFloat.SFmul prec emax a b.
Definition div (a b : t) : t := SpecFloat.SFdiv prec emax a b.

(** The number a decimal numeral denotes: the quotient of two integers,
    correctly rounded when both are below 2^53. *)
Definition of_Q (q : Q) : t := div (of_Z (Qnum q)) (of_Z (Zpos (Qden q))).

(** [a < b] and [a >= b]; both are false when an operand is [NaN]. *)
Definition ltb (a b : t) : bool := SpecFloat.SFltb a b.
Definition geb (a b : t) : bool := SpecFloat.SFleb b a.

(** Truthiness: [0], [-0] and [NaN] are falsy. *)
Definition truthy (a : t) : bool :=
  match a with
  | SpecFloat.S754_zero _ | SpecFloat.S754_nan => false
  | _ => true
  end.

(** [Math.round(a)]: the nearest integer, halves upwards. *)
Definition Math_round (a : t) : t :=
  match a with
  | SpecFloat.S754_finite s m e =>
      if 0 <=? e then a
      else
        let d := 2 ^ (- e) in
        let n := (2 * (if s then Z.neg m else Z.pos m) + d) / (2 * d) in
        if n =? 0 then SpecFloat.S754_zero s else of_Z n
  | _ => a
  end.

End Number.

Arguments Number.of_Z : simpl never.
Arguments Number.of_Q : simpl never.
Arguments Number.add : simpl never.
Arguments Number.mul : simpl never.
Arguments Number.div : simpl never.
Arguments Number.ltb : simpl never.
Arguments Number.geb : simpl never.
Arguments Number.Math_round : simpl never.

(** ** Documents *)

(** A refund entity as the gateway returns it. *)
Module RefundDetails.
Record t := mk {
  id : string;
  amount : Z;
  status : string
}.
End RefundDetails.

(** A sub-document of [payment.refunds].  [id] is what the controller
    reads as [refund.id]; [razorpayRefundId] is the required path of the
    sub-schema. *)
Module Refund.
Record t := mk {
  id : string;
  razorpayRefundId : option string;
  amount : Z;
  status : string
}.

(** [refund.status = st] *)
Definition set_status (st : string) (r : t) : t :=
  mk (id r) (razorpayRefundId r) (amount r) st.

(** The sub-document [payment.refunds.push(refund)] builds from a gateway
    refund: the sub-schema keeps [amount] and [status]; the gateway's [id]
    is not one of its paths and [razorpayRefundId] stays unset.  The
    sub-document is named here by the gateway's id; the code gives it an
    id of its own, which no step reads before [save] rejects the
    document. *)
Definition cast (refund : RefundDetails.t) : t :=
  mk (RefundDetails.id refund) None (RefundDetails.amount refund)
     (RefundDetails.status refund).

(** The sub-schema's validators: [razorpayRefundId] is required, [status]
    is one of the enum. *)
Definition valid (r : t) : bool :=
  match razorpayRefundId r with
  | Some x => negb (String.eqb x "")
  | None => false
  end
  && (String.eqb (status r) "pending" || String.eqb (status r) "processed"
      || String.eqb (status r) "failed").
End Refund.

(** A payment entity as [razorpayInstance.payments.fetch] returns it. *)
Module PaymentDetails.
Record t := mk {
  id : string;
  amount : Z;
  currency : string;
  status : string;
  method : string;
  email : string;
  contact : string
}.
End PaymentDetails.

(** A document of the Payment collection: the paths of the payment schema
    that the controller reads or that validation asks for, and the two
    fields outside the schema that the controller filters on.  A document
    written through the payment model has [orderId] and [paymentId]
    unset. *)
Module Payment.
Record t := mk {
  user : option string;
  order : option string;
  amount : option Number.t;
  currency : option string;
  status : string;
  method : option string;
  razorpayOrderId : option string;
  razorpayPaymentId : option string;
  razorpaySignature : option string;
  refunds : list Refund.t;
  orderId : option string;
  paymentId : option string
}.

(** [payment.status = st] *)
Definition set_status (st : string) (p : t) : t :=
  mk (user p) (order p) (amount p) (currency p) st (method p)
     (razorpayOrderId p) (razorpayPaymentId p) (razorpaySignature p)
     (refunds p) (orderId p) (paymentId p).

(** [payment.refunds = rs] *)
Definition set_refunds (rs : list Refund.t) (p : t) : t :=
  mk (user p) (order p) (amount p) (currency p) (status p) (method p)
     (razorpayOrderId p) (razorpayPaymentId p) (razorpaySignature p)
     rs (orderId p) (paymentId p).

(** A required path holds a value; a required string is not empty. *)
Definition present (x : option string) : bool :=
  match x with Some v => negb (String.eqb v "") | None => false end.

(** The validators [save] runs on a document the controller has changed:
    the required paths [user], [order], [amount], [razorpayOrderId], and
    [razorpaySignature] when the status is captured; the enum of [status];
    the validators of every refund sub-document. *)
Definition valid (p : t) : bool :=
  match user p with Some _ => true | None => false end
  && match order p with Some _ => true | None => false end
  && match amount p with Some _ => true | None => false end
  && present (razorpayOrderId p)
  && (if String.eqb (status p) "captured"
      then present (razorpaySignature p) else true)
  && (String.eqb (status p) "created" || String.eqb (status p) "authorized"
      || String.eqb (status p) "captured" || String.eqb (status p) "failed"
      || String.eqb (status p) "refunded")
  && forallb Refund.valid (refunds p).
End Payment.

(** A document of the Order collection. *)
Module Order.
Record t := mk {
  orderId : string;
  amount : Q;
  receipt : string;
  userId : string;
  status : string
}.

(** [order.status = st] *)
Definition set_status (st : string) (o : t) : t :=
  mk (orderId o) (amount o) (receipt o) (userId o) st.
End Order.

Record Store := mkStore {
  payments : list Payment.t;
  orders : list Order.t
}.

Definition set_payments (ps : list Payment.t) (s : Store) : Store :=
  mkStore ps (orders s).

Definition set_orders (os : list Order.t) (s : Store) : Store :=
  mkStore (payments s) os.

(** ** Requests, responses, environment *)

Record Response := mkResponse {
  status_code : Z;
  success : bool;
  message : string
}.

(** [process.env]: a variable that is not set is [None]. *)
Record Env := mkEnv {
  RAZORPAY_KEY_SECRET : option string;
  RAZORPAY_WEBHOOK_SECRET : option string
}.

(** A promise of the gateway client, settled: resolved with a value, or
    rejected with an error, of which the handlers read the [message]
    (empty when the error has none). *)
Inductive promise (A : Type) : Type :=
| Resolved (a : A)
| Rejected (message : string).
Arguments Resolved {A} a.
Arguments Rejected {A} message.

(** The gateway client. *)
Record Razorpay := mkRazorpay {
  payments_fetch : string -> promise PaymentDetails.t;
  refunds_fetch : string -> promise RefundDetails.t
}.

(** Body of POST /payments/verify and the authenticated user. *)
Record VerifyRequest := mkVerifyRequest {
  razorpay_order_id : option string;
  razorpay_payment_id : option string;
  razorpay_signature : option string;
  user_id : string
}.

(** The webhook envelope [{event, payload: {payment|refund: {entity}}}].
    Every level may be absent; an entity carries its identifiers. *)
Record PaymentEntity := mkPaymentEntity {
  pe_id : string;
  pe_order_id : option string
}.

Record RefundEntity := mkRefundEntity {
  re_id : string;
  re_payment_id : string
}.

Record Boxed (A : Type) := mkBoxed { entity : option A }.
Arguments mkBoxed {A} _.
Arguments entity {A} _.

Record Payload := mkPayload {
  payload_payment : option (Boxed PaymentEntity);
  payload_refund : option (Boxed RefundEntity)
}.

Record WebhookBody := mkWebhookBody {
  event : string;
  payload : option Payload
}.

Record WebhookRequest := mkWebhookRequest {
  x_razorpay_signature : option string;
  body : WebhookBody
}.

(** ** Asynchronous computations that may throw *)

Inductive outcome (A : Type) : Type :=
| Returned (a : A)
| Thrown (msg : string).
Arguments Returned {A} a.
Arguments Thrown {A} msg.

Definition Async (A : Type) : Type := Store -> outcome A * Store.

Definition ret {A} (a : A) : Async A := fun s => (Returned a, s).

Definition throw {A} (msg : string) : Async A := fun s => (Thrown msg, s).

Definition bind {A B} (c : Async A) (k : A -> Async B) : Async B :=
  fun s => match c s with
           | (Returned a, s') => k a s'
           | (Thrown msg, s') => (Thrown msg, s')
           end.

(** [try { c } catch (error) { h error.message }] *)
Definition try_catch {A} (c : Async A) (h : string -> Async A) : Async A :=
  fun s => match c s with
           | (Returned a, s') => (Returned a, s')
           | (Thrown msg, s') => h msg s'
           end.

Declare Scope async_scope.
Delimit Scope async_scope with async.
Notation "x <- c ;; k" := (bind c (fun x => k))
  (at level 100, c at next level, right associativity) : async_scope.
Notation "'do' c ;; k" := (bind c (fun _ => k))
  (at level 100, c at next level, right associativity) : async_scope.

(** JavaScript truthiness of a string, and of a possibly absent one. *)
Definition truthy (s : string) : bool := negb (String.eqb s "").

Definition truthy_opt (s : option string) : bool :=
  match s with Some x => truthy x | None => false end.

(** [a || b] on strings. *)
Definition or_else (a b : string) : string := if truthy a then a else b.

(** Property access on a value that may be [undefined]. *)
Definition deref {A} (o : option A) : Async A :=
  match o with
  | Some a => ret a
  | None => throw "Cannot read properties of undefined"
  end.

(** [await] of a gateway promise: a rejection is thrown. *)
Definition await {A} (p : promise A) : Async A :=
  match p with
  | Resolved a => ret a
  | Rejected message => throw message
  end.

(** ** The collections *)

(** [Payment.findOne({ paymentId })] with the position of the document:
    the first document that carries the field with that value. *)
Definition Payment_findOne (pid : string)
  : Async (option (nat * Payment.t)) :=
  fun s =>
    (Returned (list_find (fun p => Payment.paymentId p = Some pid)
                         (payments s)), s).

(** [Payment.findOneAndUpdate({ paymentId }, { status },
    { new: true, upsert: true })]: the filter names a path that is not in
    the schema, the schema is strict and the call is an upsert, so
    Mongoose refuses the call before it reaches the collection. *)
Definition Payment_findOneAndUpdate (pid st : string) : Async Payment.t :=
  throw ("Path " +:+ String "034"%char "paymentId"
         +:+ String "034"%char
               " is not in schema, strict mode is `true`, and upsert is `true`.").

(** The object [verifyPayment] hands to [Payment.create]. *)
Record PaymentObject := mkPaymentObject {
  obj_orderId : string;
  obj_paymentId : string;
  obj_signature : option string;
  obj_amount : Number.t;
  obj_currency : string;
  obj_status : string;
  obj_method : string;
  obj_userId : string;
  obj_email : string;
  obj_contact : string;
  obj_paymentDetails : PaymentDetails.t
}.

(** [Payment.create(obj)]: of the object's keys the strict schema keeps
    [amount], [currency], [status] and [method]; the required paths
    [user], [order] and [razorpayOrderId] are not keys of the object, so
    validation rejects the document and nothing is inserted. *)
Definition Payment_create (obj : PaymentObject) : Async Payment.t :=
  throw "Payment validation failed".

(** [payment.save()] for a document read at position [i]: validation
    first, the write when it passes. *)
Definition Payment_save (i : nat) (p : Payment.t) : Async unit :=
  fun s =>
    if Payment.valid p
    then (Returned tt, set_payments (<[i := p]> (payments s)) s)
    else (Thrown "Payment validation failed", s).

(** [Order.findOneAndUpdate({ orderId }, { status }, { new: true })]; an
    [undefined] order id matches no order. *)
Definition Order_findOneAndUpdate (oid : option string) (st : string)
  : Async (option Order.t) :=
  fun s => match oid with
           | None => (Returned None, s)
           | Some oid =>
               match list_find (fun o => Order.orderId o = oid) (orders s) with
               | Some (i, o) =>
                   (Returned (Some (Order.set_status st o)),
                    set_orders (<[i := Order.set_status st o]> (orders s)) s)
               | None => (Returned None, s)
               end
           end.

(** ** The [refundedAmount] virtual of the payment model

    [this.refunds.filter(refund => refund.status === 'processed')
         .reduce((total, refund) => total + refund.amount, 0)] *)
Definition refundedAmount (p : Payment.t) : Z :=
  fold_left (fun total refund => total + Refund.amount refund)
            (filter (fun refund => Refund.status refund = "processed")
                    (Payment.refunds p))
            0.

(** ** The controller *)

Section Controller.

(** [crypto.createHmac('sha256', key).update(msg).digest('hex')] *)
Variable hmac_sha256_hex : string -> string -> string.
Variable JSON_stringify : WebhookBody -> string.
Variable env : Env.
Variable razorpayInstance : Razorpay.

Local Open Scope async_scope.

(** [createHmac] throws a [TypeError] when the key is [undefined]. *)
Definition createHmac (key : option string) (msg : string) : Async string :=
  match key with
  | Some k => ret (hmac_sha256_hex k msg)
  | None => throw "The key argument must be of type string"
  end.

(** [generatedSignature === signature] against a possibly absent value. *)
Definition strict_eq (a : string) (b : option string) : bool :=
  match b with Some b => String.eqb a b | None => false end.

(** config/razorpay.js *)
Definition validatePaymentVerification
    (orderId paymentId : string) (signature : option string) : Async bool :=
  generatedSignature <-
    createHmac (RAZORPAY_KEY_SECRET env) (orderId +:+ "|" +:+ paymentId) ;;
  ret (strict_eq generatedSignature signature).

(** utils/razorpayUtils.js: the same test; an exception is logged and
    answered by [false]. *)
Definition verifyPaymentSignature
    (razorpay_order_id razorpay_payment_id : string)
    (razorpay_signature : option string) : Async bool :=
  try_catch
    (generatedSignature <-
       createHmac (RAZORPAY_KEY_SECRET env)
                  (razorpay_order_id +:+ "|" +:+ razorpay_payment_id) ;;
     let isAuthentic := strict_eq generatedSignature razorpay_signature in
     ret isAuthentic)
    (fun _ => ret false).

Definition from_opt (o : option string) : string := default "" o.

(** [exports.verifyPayment] *)
Definition verifyPayment (req : VerifyRequest) : Async Response :=
  try_catch
    (if negb (truthy_opt (razorpay_order_id req))
        || negb (truthy_opt (razorpay_payment_id req))
        || negb (truthy_opt (razorpay_signature req))
     then ret (mkResponse 400 false
                 "Missing required payment verification parameters")
     else
       let order_id := from_opt (razorpay_order_id req) in
       let payment_id := from_opt (razorpay_payment_id req) in
       isValid <- validatePaymentVerification
                    order_id payment_id (razorpay_signature req) ;;
       if negb isValid
       then ret (mkResponse 400 false
                   "Payment verification failed. Invalid signature.")
       else
         paymentDetails <-
           await (payments_fetch razorpayInstance payment_id) ;;
         order <- Order_findOneAndUpdate (Some order_id) "paid" ;;
         match order with
         | None => ret (mkResponse 404 false "Order not found")
         | Some order =>
             payment <- Payment_create
               (mkPaymentObject
                  order_id payment_id (razorpay_signature req)
                  (Number.div
                     (Number.of_Z (PaymentDetails.amount paymentDetails))
                     (Number.of_Z 100))
                  (PaymentDetails.currency paymentDetails)
                  (PaymentDetails.status paymentDetails)
                  (PaymentDetails.method paymentDetails)
                  (user_id req)
                  (PaymentDetails.email paymentDetails)
                  (PaymentDetails.contact paymentDetails)
                  paymentDetails) ;;
             ret (mkResponse 200 true "Payment verified successfully")
         end)
    (fun msg =>
       ret (mkResponse 500 false (or_else msg "Failed to verify payment"))).

(** Helper function to update payment status *)
Definition updatePaymentStatus
    (paymentId : string) (orderId : option string) (status : string)
  : Async Payment.t :=
  try_catch
    (payment <- Payment_findOneAndUpdate paymentId status ;;
     do (if truthy_opt orderId
         then Order_findOneAndUpdate orderId
                (if String.eqb status "captured" then "paid" else status)
         else ret None) ;;
     ret payment)
    (fun msg => throw msg).

(** [(refund.amount || 0)] *)
Definition or_zero (a : Z) : Z := if a =? 0 then 0 else a.

(** [payment.refunds.reduce((sum, refund) =>
       sum + (refund.amount || 0) / 100, 0)] *)
Definition totalRefunded (rs : list Refund.t) : Number.t :=
  fold_left
    (fun sum refund =>
       Number.add sum
         (Number.div (Number.of_Z (or_zero (Refund.amount refund)))
                     (Number.of_Z 100)))
    rs (Number.of_Z 0).

(** [totalRefunded >= payment.amount]; a comparison with [undefined] is
    false. *)
Definition ge_amount (total : Number.t) (amount : option Number.t) : bool :=
  match amount with Some a => Number.geb total a | None => false end.

(** Helper function to update refund status *)
Definition updateRefundStatus (refundId paymentId status : string)
  : Async Payment.t :=
  try_catch
    (found <- Payment_findOne paymentId ;;
     match found with
     | None => throw "Payment not found"
     | Some (i, payment) =>
         let refundIndex :=
           list_find (fun refund => Refund.id refund = refundId)
                     (Payment.refunds payment) in
         payment <-
           match refundIndex with
           | Some (refundIndex, refund) =>
               ret (Payment.set_refunds
                      (<[refundIndex := Refund.set_status status refund]>
                         (Payment.refunds payment))
                      payment)
           | None =>
               refundDetails <-
                 await (refunds_fetch razorpayInstance refundId) ;;
               ret (Payment.set_refunds
                      (Payment.refunds payment ++ [Refund.cast refundDetails])
                      payment)
           end ;;
         payment <-
           (if String.eqb status "processed"
            then
              let payment :=
                Payment.set_status
                  (if ge_amount (totalRefunded (Payment.refunds payment))
                                (Payment.amount payment)
                   then "refunded" else "partially_refunded")
                  payment in
              do Order_findOneAndUpdate (Payment.orderId payment)
                                        (Payment.status payment) ;;
              ret payment
            else ret payment) ;;
         do Payment_save i payment ;;
         ret payment
     end)
    (fun msg => throw msg).

(** [event.payload.payment.entity] *)
Definition payment_entity (ev : WebhookBody) : Async PaymentEntity :=
  payload <- deref (payload ev) ;;
  payment <- deref (payload_payment payload) ;;
  deref (entity payment).

(** [event.payload.refund.entity] *)
Definition refund_entity (ev : WebhookBody) : Async RefundEntity :=
  payload <- deref (payload ev) ;;
  refund <- deref (payload_refund payload) ;;
  deref (entity refund).

(** The [switch (event.event)] of the webhook handler. *)
Definition dispatch (ev : WebhookBody) : Async unit :=
  if String.eqb (event ev) "payment.authorized" then
    e <- payment_entity ev ;;
    ret tt
  else if String.eqb (event ev) "payment.captured" then
    e <- payment_entity ev ;;
    do updatePaymentStatus (pe_id e) (pe_order_id e) "captured" ;;
    ret tt
  else if String.eqb (event ev) "payment.failed" then
    e <- payment_entity ev ;;
    do updatePaymentStatus (pe_id e) (pe_order_id e) "failed" ;;
    ret tt
  else if String.eqb (event ev) "refund.created" then
    e <- refund_entity ev ;;
    do updateRefundStatus (re_id e) (re_payment_id e) "created" ;;
    ret tt
  else if String.eqb (event ev) "refund.processed" then
    e <- refund_entity ev ;;
    do updateRefundStatus (re_id e) (re_payment_id e) "processed" ;;
    ret tt
  else ret tt.

(** [exports.handleWebhook] *)
Definition handleWebhook (req : WebhookRequest) : Async Response :=
  try_catch
    (let webhookSecret := RAZORPAY_WEBHOOK_SECRET env in
     let razorpaySignature := x_razorpay_signature req in
     if negb (truthy_opt razorpaySignature)
     then ret (mkResponse 400 false "Missing Razorpay signature")
     else
       expectedSignature <-
         createHmac webhookSecret (JSON_stringify (body req)) ;;
       if negb (strict_eq expectedSignature razorpaySignature)
       then ret (mkResponse 400 false "Invalid signature")
       else
         do dispatch (body req) ;;
         ret (mkResponse 200 true "Webhook received"))
    (fun msg =>
       ret (mkResponse 500 false (or_else msg "Failed to process webhook"))).

(** *** The two reconciliation channels as one input alphabet *)

Inductive Input :=
| VerifyCall (req : VerifyRequest)
| Webhook (req : WebhookRequest).

Definition handle (i : Input) : Async Response :=
  match i with
  | VerifyCall req => verifyPayment req
  | Webhook req => handleWebhook req
  end.

(** The store after the handler has answered. *)
Definition apply_input (s : Store) (i : Input) : Store := snd (handle i s).

(** Inputs handled one at a time, in arrival order. *)
Definition run (inputs : list Input) (s : Store) : Store :=
  fold_left apply_input inputs s.

End Controller.

(** ** Vocabulary of the statements *)


(** A gateway event about a payment, [payload.payment.entity] present. *)
Definition payment_event (name pid : string) (oid : option string)
  : WebhookBody :=
  mkWebhookBody name
    (Some (mkPayload (Some (mkBoxed (Some (mkPaymentEntity pid oid)))) None)).

(** A gateway event about a refund, [payload.refund.entity] present. *)
Definition refund_event (name rid pid : string) : WebhookBody :=
  mkWebhookBody name
    (Some (mkPayload None (Some (mkBoxed (Some (mkRefundEntity rid pid)))))).

Section Signing.

Variable hmac_sha256_hex : string -> string -> string.
Variable JSON_stringify : WebhookBody -> string.

(** The delivery of [ev] by a gateway that holds the webhook secret. *)
Definition signed_webhook (key : string) (ev : WebhookBody) : WebhookRequest :=
  mkWebhookRequest (Some (hmac_sha256_hex key (JSON_stringify ev))) ev.

(** The verify call of a client that got its signature from the gateway. *)
Definition signed_verify (key oid pid uid : string) : VerifyRequest :=
  mkVerifyRequest (Some oid) (Some pid)
    (Some (hmac_sha256_hex key (oid +:+ "|" +:+ pid))) uid.

(** The webhook signature check passes: the header is present and equals
    the keyed hash of the serialised body. *)
Definition signature_passes (env : Env) (req : WebhookRequest) : Prop :=
  exists key sig,
    RAZORPAY_WEBHOOK_SECRET env = Some key /\
    x_razorpay_signature req = Some sig /\
    sig <> "" /\
    hmac_sha256_hex key (JSON_stringify (body req)) = sig.

(** The signature check of the verify call passes: the three fields are
    there and the signature is the keyed hash of [orderId|paymentId]. *)
Definition verify_passes (env : Env) (req : VerifyRequest)
    (oid pid : string) : Prop :=
  exists key,
    RAZORPAY_KEY_SECRET env = Some key /\
    razorpay_order_id req = Some oid /\ oid <> "" /\
    razorpay_payment_id req = Some pid /\ pid <> "" /\
    razorpay_signature req
    = Some (hmac_sha256_hex key (oid +:+ "|" +:+ pid)) /\
    hmac_sha256_hex key (oid +:+ "|" +:+ pid) <> "".

End Signing.

(** [event.payload.payment.entity] where every level is present. *)
Definition payment_entity_of (ev : WebhookBody) : option PaymentEntity :=
  match payload ev with
  | Some pl =>
      match payload_payment pl with Some b => entity b | None => None end
  | None => None
  end.

(** [event.payload.refund.entity] where every level is present. *)
Definition refund_entity_of (ev : WebhookBody) : option RefundEntity :=
  match payload ev with
  | Some pl =>
      match payload_refund pl with Some b => entity b | None => None end
  | None => None
  end.

(** The Order collection after the first order with id [oid] got status
    [st]. *)
Definition mark_order (oid st : string) (os : list Order.t) : list Order.t :=
  match list_find (fun o => Order.orderId o = oid) os with
  | Some (i, o) => <[i := Order.set_status st o]> os
  | None => os
  end.

(** What a reader sees of one order: the status [findOne] returns. *)
Definition order_status_of (oid : string) (s : Store) : option string :=
  Order.status <$> (snd <$> list_find (fun o => Order.orderId o = oid)
                                      (orders s)).

(** The refund sub-record an event names is listed on the payment the
    controller finds under the event's payment id. *)
Definition refund_listed (rid pid : string) (s : Store) : Prop :=
  exists i p j r,
    list_find (fun p => Payment.paymentId p = Some pid) (payments s)
    = Some (i, p)
    /\ list_find (fun r => Refund.id r = rid) (Payment.refunds p)
       = Some (j, r).

(** The one write the controller can make on a Payment: the listed
    sub-record [rid] marked processed and the status set to refunded. *)
Definition marked_refunded (rid : string) (p : Payment.t) : Payment.t :=
  match list_find (fun r => Refund.id r = rid) (Payment.refunds p) with
  | Some (j, r) =>
      Payment.set_status "refunded"
        (Payment.set_refunds
           (<[j := Refund.set_status "processed" r]> (Payment.refunds p)) p)
  | None => p
  end.

(** [Order.findOneAndUpdate] as a function on the collection, the order
    id possibly [undefined]. *)
Definition mark_order_opt (oid : option string) (st : string)
    (os : list Order.t) : list Order.t :=
  match oid with Some oid => mark_order oid st os | None => os end.

(** The refunds array after the locate-or-append step of
    [updateRefundStatus]: the sub-record with id [rid] gets status [st] in
    place; when there is none, the gateway's refund is pushed; the
    message of the rejection when the gateway call is rejected. *)
Definition located_or_appended (gw : Razorpay) (rid st : string)
    (rs : list Refund.t) : string + list Refund.t :=
  match list_find (fun r => Refund.id r = rid) rs with
  | Some (j, r) => inr (<[j := Refund.set_status st r]> rs)
  | None =>
      match refunds_fetch gw rid with
      | Resolved refundDetails => inr (rs ++ [Refund.cast refundDetails])
      | Rejected message => inl message
      end
  end.

(** The aggregate status [updateRefundStatus] derives on [processed]. *)
Definition aggregate_status (rs : list Refund.t) (amount : option Number.t)
  : string :=
  if ge_amount (totalRefunded rs) amount
  then "refunded" else "partially_refunded".

(** The order a verify call marks as paid, if any: the call carries its
    three fields, the signature is the keyed hash of
    [orderId|paymentId], and the gateway resolves the payment. *)
Definition verified_order (hmac : string -> string -> string) (env : Env)
    (gw : Razorpay) (req : VerifyRequest) : option string :=
  match razorpay_order_id req, razorpay_payment_id req,
        razorpay_signature req, RAZORPAY_KEY_SECRET env with
  | Some oid, Some pid, Some sig, Some key =>
      if truthy oid && truthy pid && truthy sig
         && String.eqb (hmac key (oid +:+ "|" +:+ pid)) sig
      then match payments_fetch gw pid with
           | Resolved _ => Some oid
           | Rejected _ => None
           end
      else None
  | _, _, _, _ => None
  end.

(** The inputs of the payment channel: verify calls of the client and the
    three payment webhooks. *)
Definition payment_channel (i : Input) : Prop :=
  match i with
  | VerifyCall req => True
  | Webhook req =>
      event (body req) = "payment.authorized"
      \/ event (body req) = "payment.captured"
      \/ event (body req) = "payment.failed"
  end.

(** ** A sample installation for the worked scenarios

    [demo_hmac] and [demo_stringify] stand in for the keyed hash and the
    serialiser where a scenario has to be run; no statement depends on
    how they are chosen. *)

Definition demo_hmac (key msg : string) : string :=
  "hmac:" +:+ key +:+ ":" +:+ msg.

Definition demo_stringify (ev : WebhookBody) : string := event ev.

Definition demo_env : Env := mkEnv (Some "key_secret") (Some "whsec").

(** The gateway reports [pay_XYZ] as captured, 100.00 INR, and knows three
    refunds. *)
Definition demo_gateway : Razorpay :=
  mkRazorpay
    (fun pid =>
       if String.eqb pid "pay_XYZ"
       then Resolved (PaymentDetails.mk "pay_XYZ" 10000 "INR" "captured"
                        "card" "buyer@example.com" "9999999999")
       else Rejected "The id provided does not exist")
    (fun rid =>
       if String.eqb rid "rfnd_1"
       then Resolved (RefundDetails.mk "rfnd_1" 5000 "pending")
       else if String.eqb rid "rfnd_2"
       then Resolved (RefundDetails.mk "rfnd_2" 10000 "processed")
       else if String.eqb rid "rfnd_3"
       then Resolved (RefundDetails.mk "rfnd_3" 20000 "processed")
       else Rejected "The id provided does not exist").

Definition demo_order (st : string) : Order.t :=
  Order.mk "order_ABC" 100 "rcpt_1" "user_1" st.

(** The payment document of [pay_XYZ], 100.00 INR, in a given state, as
    the payment model stores it. *)
Definition demo_payment (st : string) (rs : list Refund.t) : Payment.t :=
  Payment.mk (Some "66f0a1b2c3d4e5f607182901")
             (Some "66f0a1b2c3d4e5f607182900")
             (Some (Number.of_Z 100)) (Some "INR") st (Some "card")
             (Some "order_ABC") (Some "pay_XYZ") (Some "sig") rs None None.

(** [pay_XYZ] captured, nothing refunded yet. *)
Definition store_captured : Store :=
  mkStore [demo_payment "captured" []] [demo_order "paid"].

(** [pay_XYZ] recorded as failed. *)
Definition store_failed : Store :=
  mkStore [demo_payment "failed" []] [demo_order "failed"].

(** The order of [order_ABC] waiting for its payment. *)
Definition store_pending : Store := mkStore [] [demo_order "pending"].

(** ** The other handlers of the payment controller *)

(** Truthiness of a number that may be [undefined]. *)
Definition truthy_num (a : option Number.t) : bool :=
  match a with Some x => Number.truthy x | None => false end.

(** Body of POST /payments/refund and the authenticated user. *)
Record RefundRequest := mkRefundRequest {
  refund_paymentId : option string;
  refund_amount : option Number.t;
  refund_notes : option (gmap string string);
  refund_user : string
}.

(** The options handed to [razorpayInstance.payments.refund]. *)
Record RefundOptions := mkRefundOptions {
  payment_id : string;
  notes : gmap string string;
  options_amount : option Number.t
}.

Section Other_handlers.

Variable razorpayInstance : Razorpay.

(** [razorpayInstance.payments.refund] *)
Variable payments_refund : RefundOptions -> promise RefundDetails.t.

Local Open Scope async_scope.

(** [exports.processRefund] *)
Definition processRefund (req : RefundRequest) : Async Response :=
  try_catch
    (let paymentId := refund_paymentId req in
     let amount := refund_amount req in
     let notes := default (∅ : gmap string string) (refund_notes req) in
     if negb (truthy_opt paymentId)
     then ret (mkResponse 400 false "Payment ID is required for refund")
     else
       let paymentId := default "" paymentId in
       found <- Payment_findOne paymentId ;;
       match found with
       | None => ret (mkResponse 404 false "Payment not found")
       | Some (i, payment) =>
           let refundOptions :=
             mkRefundOptions paymentId
               (<["userId" := refund_user req]> notes)
               (if truthy_num amount
                then Some (Number.Math_round
                             (Number.mul (default (Number.of_Z 0) amount)
                                         (Number.of_Z 100)))
                else None) in
           refund <- await (payments_refund refundOptions) ;;
           let payment :=
             Payment.set_refunds
               (Payment.refunds payment ++ [Refund.cast refund]) payment in
           let payment :=
             Payment.set_status
               (if truthy_num amount
                   && match amount, Payment.amount payment with
                      | Some a, Some b => Number.ltb a b
                      | _, _ => false
                      end
                then "partially_refunded" else "refunded")
               payment in
           do Payment_save i payment ;;
           do Order_findOneAndUpdate (Payment.orderId payment)
                                     (Payment.status payment) ;;
           ret (mkResponse 200 true "Refund processed successfully")
       end)
    (fun msg =>
       ret (mkResponse 500 false (or_else msg "Failed to process refund"))).

(** [exports.getPaymentDetails]: the local document first, the gateway
    when there is none. *)
Definition getPaymentDetails (paymentId : string) : Async Response :=
  try_catch
    (found <- Payment_findOne paymentId ;;
     match found with
     | None =>
         try_catch
           (razorpayPayment <-
              await (payments_fetch razorpayInstance paymentId) ;;
            ret (mkResponse 200 true
                   "Payment details retrieved from Razorpay"))
           (fun _ => ret (mkResponse 404 false "Payment not found"))
     | Some (_, payment) =>
         ret (mkResponse 200 true "Payment details retrieved successfully")
     end)
    (fun msg =>
       ret (mkResponse 500 false
              (or_else msg "Failed to retrieve payment details"))).

End Other_handlers.

(** The options [processRefund] builds for a request about [pid]. *)
Definition refund_options (req : RefundRequest) (pid : string)
  : RefundOptions :=
  mkRefundOptions pid
    (<["userId" := refund_user req]>
       (default (∅ : gmap string string) (refund_notes req)))
    (if truthy_num (refund_amount req)
     then Some (Number.Math_round
                  (Number.mul (default (Number.of_Z 0) (refund_amount req))
                              (Number.of_Z 100)))
     else None).

(** ** The methods of the payment model (payment.model.js)

    The schema's document, with the paths its methods read and write. *)
Module PaymentModel.

Record Card := mkCard {
  last4 : option string;
  network : option string;
  type : option string;
  issuer : option string;
  international : option bool;
  emi : option bool
}.

Record Error := mkError {
  code : option string;
  description : option string;
  source : option string;
  step : option string;
  reason : option string
}.

Record t := mk {
  _id : string;
  amount : Q;
  status : string;
  method : option string;
  razorpayOrderId : string;
  razorpayPaymentId : option string;
  razorpaySignature : option string;
  card : option Card;
  upi : option string;
  wallet : option string;
  bank : option string;
  error : option Error;
  receipt : option string
}.

(** The payment entity handed to [updateFromRazorpay]. *)
Record PaymentData := mkPaymentData {
  data_id : string;
  data_status : string;
  data_method : option string;
  data_card : option Card;
  data_vpa : option string;
  data_wallet : option string;
  data_bank : option string;
  error_code : option string;
  error_description : option string;
  error_source : option string;
  error_step : option string;
  error_reason : option string
}.

(** [['captured', 'authorized', 'refunded'].includes(status)] *)
Definition reported (st : string) : bool :=
  String.eqb st "captured" || String.eqb st "authorized"
  || String.eqb st "refunded".

(** [paymentSchema.methods.updateFromRazorpay]: the document it saves. *)
Definition updateFromRazorpay (paymentData : PaymentData) (this : t) : t :=
  mk (_id this)
     (amount this)
     (if reported (data_status paymentData)
      then data_status paymentData else "failed")
     (data_method paymentData)
     (razorpayOrderId this)
     (Some (data_id paymentData))
     (razorpaySignature this)
     (match data_card paymentData with
      | Some c =>
          Some (mkCard (last4 c) (network c) (type c) (issuer c)
                       (international c) (emi c))
      | None => card this
      end)
     (if truthy_opt (data_vpa paymentData)
      then data_vpa paymentData else upi this)
     (if truthy_opt (data_wallet paymentData)
      then data_wallet paymentData else wallet this)
     (if truthy_opt (data_bank paymentData)
      then data_bank paymentData else bank this)
     (if truthy_opt (error_code paymentData)
      then Some (mkError (error_code paymentData)
                         (error_description paymentData)
                         (error_source paymentData)
                         (error_step paymentData)
                         (error_reason paymentData))
      else error this)
     (receipt this).

(** [str.slice(-n)] *)
Definition slice_last (n : nat) (str : string) : string :=
  substring (String.length str - n) n str.

(** [paymentSchema.methods.generateReceipt] at the instant [now]
    ([Date.now()]): the receipt it returns and the document it leaves. *)
Definition generateReceipt (now : N) (this : t) : string * t :=
  if negb (truthy_opt (receipt this))
  then
    let r := "RCPT-" +:+ pretty now +:+ "-" +:+ slice_last 6 (_id this) in
    (r,
     mk (_id this) (amount this) (status this) (method this)
        (razorpayOrderId this) (razorpayPaymentId this)
        (razorpaySignature this) (card this) (upi this) (wallet this)
        (bank this) (error this) (Some r))
  else (default "" (receipt this), this).

Section Signature.

Variable hmac_sha256_hex : string -> string -> string.

(** [paymentSchema.methods.verifySignature] *)
Definition verifySignature (secret : option string) (this : t)
  : Async bool :=
  if negb (truthy_opt (razorpayPaymentId this)) then ret false
  else
    bind
      (createHmac hmac_sha256_hex secret
         (razorpayOrderId this +:+ "|"
          +:+ default "" (razorpayPaymentId this)))
      (fun generatedSignature =>
         ret (strict_eq generatedSignature (razorpaySignature this))).

End Signature.

End PaymentModel.

(** ** The other signature checks *)

Section Other_signature_checks.

Variable hmac_sha256_hex : string -> string -> string.
Variable JSON_stringify : WebhookBody -> string.
Variable env : Env.

(** utils/helper.js: [exports.verifyRazorpaySignature] *)
Definition verifyRazorpaySignature
    (orderId paymentId : string) (signature : option string) : Async bool :=
  bind
    (createHmac hmac_sha256_hex (RAZORPAY_KEY_SECRET env)
                (orderId +:+ "|" +:+ paymentId))
    (fun generatedSignature =>
       ret (strict_eq generatedSignature signature)).

(** What a middleware does with a request: it answers, or it hands the
    request on ([next()]). *)
Inductive Middleware :=
| Answered (r : Response)
| Next.

(** middleware/validation.middleware.js: [exports.validateWebhook] *)
Definition validateWebhook (req : WebhookRequest) : Async Middleware :=
  try_catch
    (let webhookSecret := RAZORPAY_WEBHOOK_SECRET env in
     let razorpaySignature := x_razorpay_signature req in
     if negb (truthy_opt razorpaySignature)
     then ret (Answered (mkResponse 400 false "Missing Razorpay signature"))
     else
       bind
         (createHmac hmac_sha256_hex webhookSecret
                     (JSON_stringify (body req)))
         (fun expectedSignature =>
            if negb (strict_eq expectedSignature razorpaySignature)
            then ret (Answered
                        (mkResponse 400 false "Invalid Razorpay signature"))
            else ret Next))
    (fun _ =>
       ret (Answered (mkResponse 500 false "Webhook validation error"))).

End Other_signature_checks.

(** ** The methods of the order model (order.model.js)

    The order model keeps the payment of an order as the document id of a
    payment-model document; [findById] reads the collection of those
    documents.  The amount of such a document is the decimal numeral it
    was written with; the engine holds the nearest binary64 number
    ([Number.of_Q]) and computes with it.  The validation a save runs is
    not part of the model of these methods. *)

Module OrderModel.

Record RefundInfo := mkRefundInfo {
  razorpayRefundId : option string;
  info_amount : option Number.t;
  info_status : option string;
  info_reason : option string;
  processedAt : option N
}.

Record t := mk {
  _id : string;
  status : string;
  razorpayOrderId : option string;
  paymentAttempts : list string;
  payment : option string;
  refund : option RefundInfo
}.

(** [orderSchema.methods.updateOrderAfterPayment]: the document it saves.
    The second argument defaults to ['processing'] when it is not given. *)
Definition updateOrderAfterPayment
    (payment' : PaymentModel.t) (status' : option string) (this : t) : t :=
  mk (_id this)
     (default "processing" status')
     (razorpayOrderId this)
     (paymentAttempts this ++ [PaymentModel._id payment'])
     (Some (PaymentModel._id payment'))
     (refund this).

(** The arguments of [razorpay.payments.refund]. *)
Record RefundCall := mkRefundCall {
  call_payment_id : string;
  call_amount : Number.t;
  notes_reason : string;
  notes_orderId : string
}.

(** How [initiateRefund] ends: with the document it saved, or by throwing,
    leaving the document in memory as given and nothing saved. *)
Inductive Outcome :=
| Saved (doc : t)
| Threw (message : string) (this : t).

(** [mongoose.model('Payment').findById] *)
Definition Payment_findById (payments : list PaymentModel.t) (id : string)
  : option PaymentModel.t :=
  List.find (fun p => String.eqb (PaymentModel._id p) id) payments.

Section InitiateRefund.

Variable payments : list PaymentModel.t.

(** [razorpay.payments.refund]: the id and the amount in paise of the
    refund created, or the [message] of the error it rejects with. *)
Variable payments_refund : RefundCall -> option string + string * Z.

(** [orderSchema.methods.initiateRefund] at the instant [now]. *)
Definition initiateRefund (now : N) (reason : option string) (this : t)
  : Outcome :=
  if negb (bool_decide (is_Some (payment this)))
     || negb (truthy_opt (razorpayOrderId this))
  then Threw "Cannot refund order without a successful payment" this
  else
    match payment this ≫= Payment_findById payments with
    | None => Threw "Cannot find valid payment details for refund" this
    | Some payment' =>
        if negb (truthy_opt (PaymentModel.razorpayPaymentId payment'))
        then Threw "Cannot find valid payment details for refund" this
        else
          let reason' :=
            if truthy_opt reason then default "" reason
            else "Customer requested refund" in
          match payments_refund
                  (mkRefundCall
                     (default "" (PaymentModel.razorpayPaymentId payment'))
                     (Number.mul (Number.of_Q (PaymentModel.amount payment'))
                                 (Number.of_Z 100))
                     reason' (_id this)) with
          | inr (refund_id, refund_paise) =>
              Saved (mk (_id this) "cancelled" (razorpayOrderId this)
                        (paymentAttempts this) (payment this)
                        (Some (mkRefundInfo (Some refund_id)
                                 (Some (Number.div
                                          (Number.of_Z refund_paise)
                                          (Number.of_Z 100)))
                                 (Some "pending") (Some reason')
                                 (Some now))))
          | inl message =>
              let kept :=
                default (mkRefundInfo None None None None None)
                        (refund this) in
              Threw ("Refund failed: " +:+ default "undefined" message)
                    (mk (_id this) (status this) (razorpayOrderId this)
                        (paymentAttempts this) (payment this)
                        (Some (mkRefundInfo (razorpayRefundId kept)
                                 (info_amount kept) (Some "failed")
                                 (info_reason kept) (processedAt kept))))
          end
    end.

End InitiateRefund.

End OrderModel.

(** ** The validators (utils/validators.js)

    A string is a sequence of code units; the strings of the model are
    those whose code units are below 256, on which [\s] matches the codes
    9 to 13, 32 and 160. *)

Module Validators.

Definition code (c : ascii) : Z := Z.of_N (N_of_ascii c).

(** [/[\s-]/] *)
Definition is_separator (c : ascii) : bool :=
  ((9 <=? code c) && (code c <=? 13)) || (code c =? 32) || (code c =? 160)
  || (code c =? 45).

(** [/\d/] *)
Definition is_digit (c : ascii) : bool :=
  (48 <=? code c) && (code c <=? 57).

(** [cardNumber.replace(/[\s-]/g, '')] *)
Fixpoint remove_separators (s : string) : string :=
  match s with
  | EmptyString => EmptyString
  | String c s' =>
      if is_separator c then remove_separators s'
      else String c (remove_separators s')
  end.

Fixpoint all_digits (s : string) : bool :=
  match s with
  | EmptyString => true
  | String c s' => is_digit c && all_digits s'
  end.

(** [/^\d+$/.test(s)] *)
Definition only_digits (s : string) : bool := truthy s && all_digits s.

(** [parseInt] of one decimal digit. *)
Definition parseInt_digit (c : ascii) : Z := code c - 48.

(** One turn of the loop of [isValidCreditCard] on the state
    [(sum, double)]. *)
Definition luhn_step (st : Z * bool) (c : ascii) : Z * bool :=
  let '(sum, double) := st in
  let digit := parseInt_digit c in
  let digit :=
    if double
    then (let digit := digit * 2 in if digit >? 9 then digit - 9 else digit)
    else digit in
  (sum + digit, negb double).

(** The loop, from the last character to the first. *)
Definition luhn_sum (cardNumber : string) : Z :=
  fst (fold_left luhn_step (rev (list_ascii_of_string cardNumber))
         (0, false)).

(** [exports.isValidCreditCard] *)
Definition isValidCreditCard (cardNumber : string) : bool :=
  let cardNumber := remove_separators cardNumber in
  if negb (only_digits cardNumber) then false
  else if (Z.of_nat (String.length cardNumber) <? 13)
          || (Z.of_nat (String.length cardNumber) >? 19) then false
  else Z.rem (luhn_sum cardNumber) 10 =? 0.

(** A number as [parseInt] returns it. *)
Inductive number :=
| NaN
| Num (z : Z)
| Infinity (negative : bool).

(** [a < b] *)
Definition num_lt (a b : number) : bool :=
  match a, b with
  | Num x, Num y => x <? y
  | Num _, Infinity negative => negb negative
  | Infinity negative, Num _ => negative
  | Infinity n1, Infinity n2 => n1 && negb n2
  | _, _ => false
  end.

(** [a === b] *)
Definition num_eq (a b : number) : bool :=
  match a, b with
  | Num x, Num y => x =? y
  | Infinity n1, Infinity n2 => Bool.eqb n1 n2
  | _, _ => false
  end.

(** Truthiness of a number. *)
Definition num_truthy (a : number) : bool :=
  match a with
  | NaN => false
  | Num z => negb (z =? 0)
  | Infinity _ => true
  end.

Section Parsing.

(** [parseInt(string, radix)]; the string and the radix may be
    [undefined]. *)
Variable parseInt : option string -> option Z -> number.

(** [exports.isValidExpiryDate] at an instant whose [getMonth()] and
    [getFullYear()] are given. *)
Definition isValidExpiryDate (getMonth getFullYear : Z)
    (month year : option string) : bool :=
  let currentMonth := getMonth + 1 in
  let currentYear := Z.rem getFullYear 100 in
  let month := parseInt month (Some 10) in
  let year := parseInt year (Some 10) in
  if num_lt month (Num 1) || num_lt (Num 12) month then false
  else if num_lt year (Num currentYear)
          || (num_eq year (Num currentYear)
              && num_lt month (Num currentMonth)) then false
  else true.

(** [exports.validatePagination]: the pair [{ page, limit }]. *)
Definition validatePagination (page limit : option string)
  : number * number :=
  let page :=
    if num_truthy (parseInt page None) then parseInt page None else Num 1 in
  let limit :=
    if num_truthy (parseInt limit None) then parseInt limit None
    else Num 10 in
  let page := if num_lt page (Num 1) then Num 1 else page in
  let limit := if num_lt limit (Num 1) then Num 10 else limit in
  let limit := if num_lt (Num 100) limit then Num 100 else limit in
  (page, limit).

End Parsing.

End Validators.

(** ** The pagination object (utils/helper.js)

    Page, limit and total are integers; the division by [limit] is the
    one of the rationals, so the model speaks for a limit other than 0. *)

Module Pagination.

Record t := mk {
  page : Z;
  limit : Z;
  total : Z;
  totalPages : Z;
  hasNextPage : bool;
  hasPrevPage : bool
}.

Definition Math_ceil (q : Q) : Z := Qceiling q.

(** [exports.createPagination] *)
Definition createPagination (page limit total : Z) : t :=
  let totalPages := Math_ceil (inject_Z total / inject_Z limit)%Q in
  mk page limit total totalPages (page <? totalPages) (page >? 1).

End Pagination.

(** A reader of decimal numerals for the worked dates. *)
Definition demo_parseInt (s : option string) (radix : option Z)
  : Validators.number :=
  match s with
  | Some "01" => Validators.Num 1
  | Some "12" => Validators.Num 12
  | Some "24" => Validators.Num 24
  | Some "2020" => Validators.Num 2020
  | _ => Validators.NaN
  end.

(** ** Vocabulary of the further properties *)

(** A payment document without its status and its refunds, and an order
    without its status: the part no handler rewrites. *)
Definition payment_core (p : Payment.t) : Payment.t :=
  Payment.set_status "" (Payment.set_refunds [] p).

Definition order_core (o : Order.t) : Order.t := Order.set_status "" o.

(** What identifies a refund sub-record: its id and its amount. *)
Definition refund_key (r : Refund.t) : string * Z :=
  (Refund.id r, Refund.amount r).

(** [p'] is the document [p] later in its life: the same core, and every
    refund sub-record of [p] still there, in place, id and amount
    unchanged. *)
Definition grows (p p' : Payment.t) : Prop :=
  payment_core p' = payment_core p
  /\ (refund_key <$> Payment.refunds p)
     `prefix_of` (refund_key <$> Payment.refunds p').

(** The Payment collection [ps'] keeps every document of [ps], in place
    and grown, and may have new documents after them. *)
Definition documents_kept (ps ps' : list Payment.t) : Prop :=
  exists kept extra, ps' = kept ++ extra /\ Forall2 grows ps kept.

(** * Properties *)

(** ** The monad and the collections *)

Lemma truthy_true (s : string) : truthy s = true <-> s <> "".
Proof.
  unfold truthy. rewrite negb_true_iff.
  destruct (String.eqb_spec s ""); split; congruence.
Qed.

Lemma truthy_opt_true (o : option string) :
  truthy_opt o = true <-> exists s, o = Some s /\ s <> "".
Proof.
  destruct o as [s|]; simpl.
  - rewrite truthy_true. split; [eauto | intros (? & [= ->] & ?); done].
  - split; [done | intros (? & ? & ?); done].
Qed.

Lemma strict_eq_true (a : string) (b : option string) :
  strict_eq a b = true <-> b = Some a.
Proof.
  destruct b as [b|]; simpl; [|done].
  rewrite String.eqb_eq. split; congruence.
Qed.

Lemma strict_eq_decide (a : string) (b : option string) :
  strict_eq a b = bool_decide (b = Some a).
Proof.
  apply eq_true_iff_eq. rewrite strict_eq_true, bool_decide_eq_true. done.
Qed.

(** ** The signature verifier *)

(** C6. With the key secret configured, both client-side verifiers answer
    [true] exactly when the claimed signature is the hex HMAC-SHA256 of
    [orderId + "|" + paymentId] under that secret, and they leave the store
    alone; so the signature computed with the right secret verifies, and
    any other signature is refused. *)
Theorem C6_verify_iff_hmac
    (hmac : string -> string -> string) (env : Env) (secret : string)
    (orderId paymentId : string) (s : Store) :
  RAZORPAY_KEY_SECRET env = Some secret ->
  let expected := hmac secret (orderId +:+ "|" +:+ paymentId) in
  (forall sig : option string,
      validatePaymentVerification hmac env orderId paymentId sig s
      = (Returned (bool_decide (sig = Some expected)), s)
      /\ verifyPaymentSignature hmac env orderId paymentId sig s
         = (Returned (bool_decide (sig = Some expected)), s))
  /\ validatePaymentVerification hmac env orderId paymentId (Some expected) s
     = (Returned true, s)
  /\ (forall sig : string,
         sig <> expected ->
         validatePaymentVerification hmac env orderId paymentId (Some sig) s
         = (Returned false, s)).
Proof.
  intros Hkey expected.
  assert (Hv : forall sig,
             validatePaymentVerification hmac env orderId paymentId sig s
             = (Returned (bool_decide (sig = Some expected)), s)).
  { intros sig. unfold validatePaymentVerification, createHmac, bind, ret.
    rewrite Hkey. simpl. by rewrite strict_eq_decide. }
  split; [|split].
  - intros sig. split; [apply Hv|].
    unfold verifyPaymentSignature, try_catch, createHmac, bind, ret.
    rewrite Hkey. simpl. by rewrite strict_eq_decide.
  - rewrite Hv. by rewrite bool_decide_eq_true_2.
  - intros sig Hne. rewrite Hv. rewrite bool_decide_eq_false_2; [done|].
    congruence.
Qed.

(** C6 on the sample installation: the signature the gateway computes for
    [order_ABC|pay_XYZ] verifies. *)
Lemma C6_witness :
  validatePaymentVerification demo_hmac demo_env "order_ABC" "pay_XYZ"
    (Some (demo_hmac "key_secret" "order_ABC|pay_XYZ")) (mkStore [] [])
  = (Returned true, mkStore [] []).
Proof.
  exact (proj1 (proj2 (C6_verify_iff_hmac
                         demo_hmac demo_env "key_secret"
                         "order_ABC" "pay_XYZ" (mkStore [] []) eq_refl))).
Defined.

(** ** The webhook handler: the signature gate *)

Section Webhook_gate.

Variable hmac : string -> string -> string.
Variable stringify : WebhookBody -> string.
Variable env : Env.
Variable gw : Razorpay.

(** What the handler answers once the event has been dispatched. *)
Lemma handleWebhook_passes (req : WebhookRequest) (s : Store) :
  signature_passes hmac stringify env req ->
  handleWebhook hmac stringify env gw req s
  = match dispatch gw (body req) s with
    | (Returned _, s') =>
        (Returned (mkResponse 200 true "Webhook received"), s')
    | (Thrown msg, s') =>
        (Returned (mkResponse 500 false
                     (or_else msg "Failed to process webhook")), s')
    end.
Proof.
  intros (key & sig & Hkey & Hsig & Hne & Hmac).
  unfold handleWebhook, try_catch, bind, createHmac, ret.
  rewrite Hsig, Hkey. simpl.
  rewrite (proj2 (truthy_true sig) Hne). simpl.
  rewrite Hmac, String.eqb_refl. simpl.
  by destruct (dispatch gw (body req) s) as [[u|msg] s'].
Qed.

End Webhook_gate.

(** C8. A webhook request without a signature header (absent or empty), or
    whose header differs from the HMAC of the body under the webhook
    secret, is answered 400 and the store is left exactly as it was. *)
Theorem C8_bad_signature_rejected
    (hmac : string -> string -> string) (stringify : WebhookBody -> string)
    (env : Env) (gw : Razorpay) (req : WebhookRequest) (s : Store) :
  (truthy_opt (x_razorpay_signature req) = false
   \/ exists key sig,
        RAZORPAY_WEBHOOK_SECRET env = Some key /\
        x_razorpay_signature req = Some sig /\
        hmac key (stringify (body req)) <> sig) ->
  exists r,
    handleWebhook hmac stringify env gw req s = (Returned r, s)
    /\ status_code r = 400
    /\ success r = false.
Proof.
  intros [Hmiss | (key & sig & Hkey & Hsig & Hne)];
    unfold handleWebhook, try_catch, bind, createHmac, ret.
  - rewrite Hmiss. simpl. eauto.
  - rewrite Hsig, Hkey. simpl.
    destruct (truthy sig); simpl; [|eauto].
    destruct (String.eqb_spec (hmac key (stringify (body req))) sig);
      [done|]. simpl. eauto.
Qed.

(** C8 on the sample installation: a forged header is answered 400 and the
    store stays as it was. *)
Lemma C8_witness :
  exists r,
    handleWebhook demo_hmac demo_stringify demo_env demo_gateway
      (mkWebhookRequest (Some "forged")
         (payment_event "payment.captured" "pay_XYZ" (Some "order_ABC")))
      store_failed
    = (Returned r, store_failed)
    /\ status_code r = 400
    /\ success r = false.
Proof.
  apply (C8_bad_signature_rejected
           demo_hmac demo_stringify demo_env demo_gateway
           (mkWebhookRequest (Some "forged")
              (payment_event "payment.captured" "pay_XYZ" (Some "order_ABC")))
           store_failed).
  right. exists "whsec", "forged". repeat split. discriminate.
Defined.

(** ** First-match lookup under an in-place write *)

Section Find_insert.

Context {A : Type} (P : A -> Prop) `{forall x, Decision (P x)}.

(** Writing back, at position [i], a document that matches the filter
    exactly when the old one did: the first match stays where it was. *)
Lemma list_find_insert_same (l : list A) (i : nat) (x y : A) :
  l !! i = Some x ->
  (P x <-> P y) ->
  list_find P (<[i := y]> l)
  = (fun jz => (fst jz, if decide (fst jz = i) then y else snd jz))
      <$> list_find P l.
Proof.
  revert i. induction l as [|a l IH]; intros i Hi Hxy; [done|].
  destruct i as [|i]; simpl in *.
  - injection Hi as ->.
    destruct (decide (P y)) as [Hy|Hy], (decide (P x)) as [Hx|Hx];
      try tauto; simpl.
    by destruct (list_find P l) as [[j z]|].
  - destruct (decide (P a)); simpl; [done|].
    rewrite (IH i Hi Hxy).
    destruct (list_find P l) as [[j z]|]; simpl; [|done].
    do 2 f_equal. destruct (decide (j = i)), (decide (S j = S i)); done || lia.
Qed.

Lemma list_find_insert_hit (l : list A) (i : nat) (x y : A) :
  list_find P l = Some (i, x) ->
  P y ->
  list_find P (<[i := y]> l) = Some (i, y).
Proof.
  intros Hf Hy. pose proof Hf as (Hi & Hx & _)%list_find_Some.
  rewrite (list_find_insert_same l i x y Hi) by tauto.
  rewrite Hf. simpl. by rewrite decide_True.
Qed.

End Find_insert.

(** ** The collections, step by step *)

Lemma set_orders_same (s : Store) : set_orders (orders s) s = s.
Proof. by destruct s. Qed.

Lemma Order_findOneAndUpdate_run (oid : option string) (st : string)
    (s : Store) :
  exists o,
    Order_findOneAndUpdate oid st s
    = (Returned o, set_orders (mark_order_opt oid st (orders s)) s)
    /\ (o = None <-> order_status_of (default "" oid) s = None \/ oid = None).
Proof.
  unfold Order_findOneAndUpdate, mark_order_opt, mark_order, order_status_of.
  destruct oid as [oid|]; simpl.
  - destruct (list_find _ (orders s)) as [[i o]|]; eexists; split;
      try done; try by rewrite set_orders_same.
    + split; [done|]. by intros [?|?].
    + split; [by left|done].
  - eexists. split; [by rewrite set_orders_same|]. split; [by right|done].
Qed.

(** Marking an order does not move it, and does not change its id. *)
Lemma list_find_mark_order (a b st : string) (os : list Order.t) :
  list_find (fun o => Order.orderId o = a) (mark_order b st os)
  = (fun jz => (fst jz,
                if decide (a = b)
                then Order.set_status st (snd jz) else snd jz))
      <$> list_find (fun o => Order.orderId o = a) os.
Proof.
  unfold mark_order.
  destruct (list_find (fun o => Order.orderId o = b) os) as [[k o]|] eqn:Hb.
  - pose proof Hb as (Hk & Ho & _)%list_find_Some.
    rewrite (list_find_insert_same _ os k o (Order.set_status st o) Hk)
      by done.
    destruct (decide (a = b)) as [->|Hab].
    + rewrite Hb. simpl. by rewrite decide_True.
    + destruct (list_find (fun o => Order.orderId o = a) os)
        as [[j z]|] eqn:Ha; simpl; [|done].
      pose proof Ha as (Hj & Hz & _)%list_find_Some.
      rewrite decide_False; [done|]. intros ->. congruence.
  - destruct (decide (a = b)) as [->|Hab]; [by rewrite Hb|].
    by destruct (list_find (fun o => Order.orderId o = a) os) as [[j z]|].
Qed.

Lemma mark_order_idem (a st : string) (os : list Order.t) :
  mark_order a st (mark_order a st os) = mark_order a st os.
Proof.
  unfold mark_order at 1. rewrite list_find_mark_order.
  unfold mark_order.
  destruct (decide (a = a)) as [_|]; [|done].
  destruct (list_find (fun o => Order.orderId o = a) os) as [[i o]|] eqn:Ha;
    simpl; [|done].
  by rewrite list_insert_insert_eq.
Qed.

Lemma mark_order_comm (a b st : string) (os : list Order.t) :
  mark_order a st (mark_order b st os) = mark_order b st (mark_order a st os).
Proof.
  destruct (decide (a = b)) as [->|Hab]; [done|].
  unfold mark_order at 1 3. rewrite !list_find_mark_order.
  destruct (decide (a = b)) as [|_]; [done|].
  destruct (decide (b = a)) as [|_]; [congruence|].
  unfold mark_order.
  destruct (list_find (fun o => Order.orderId o = a) os) as [[i o]|] eqn:Ha,
           (list_find (fun o => Order.orderId o = b) os) as [[k o']|] eqn:Hb;
    simpl; try done.
  pose proof Ha as (Hi & Ho & _)%list_find_Some.
  pose proof Hb as (Hk & Ho' & _)%list_find_Some.
  assert (i <> k) as Hne by (intros ->; congruence).
  by rewrite list_insert_insert_ne.
Qed.

Lemma mark_order_opt_idem (a : option string) (st : string)
    (os : list Order.t) :
  mark_order_opt a st (mark_order_opt a st os) = mark_order_opt a st os.
Proof. destruct a; [apply mark_order_idem|done]. Qed.

Lemma mark_order_opt_comm (a b : option string) (st : string)
    (os : list Order.t) :
  mark_order_opt a st (mark_order_opt b st os)
  = mark_order_opt b st (mark_order_opt a st os).
Proof. destruct a, b; try done. apply mark_order_comm. Qed.

(** ** The status helpers, step by step *)

(** [updatePaymentStatus] always throws, before any write: the upsert is
    refused. *)
Lemma updatePaymentStatus_run (pid : string) (oid : option string)
    (st : string) (s : Store) :
  exists msg, updatePaymentStatus pid oid st s = (Thrown msg, s).
Proof. by eexists. Qed.

Lemma payment_entity_run (ev : WebhookBody) (s : Store) :
  payment_entity ev s
  = match payment_entity_of ev with
    | Some e => (Returned e, s)
    | None => (Thrown "Cannot read properties of undefined", s)
    end.
Proof.
  unfold payment_entity, payment_entity_of, bind, deref, ret, throw.
  destruct (payload ev) as [pl|]; simpl; [|done].
  destruct (payload_payment pl) as [b|]; simpl; [|done].
  by destruct (entity b).
Qed.

Lemma refund_entity_run (ev : WebhookBody) (s : Store) :
  refund_entity ev s
  = match refund_entity_of ev with
    | Some e => (Returned e, s)
    | None => (Thrown "Cannot read properties of undefined", s)
    end.
Proof.
  unfold refund_entity, refund_entity_of, bind, deref, ret, throw.
  destruct (payload ev) as [pl|]; simpl; [|done].
  destruct (payload_refund pl) as [b|]; simpl; [|done].
  by destruct (entity b).
Qed.

(** ** What validation rejects *)

Lemma valid_refunds (p : Payment.t) :
  Payment.valid p = true -> forallb Refund.valid (Payment.refunds p) = true.
Proof. unfold Payment.valid. rewrite !andb_true_iff. tauto. Qed.

Lemma valid_status (p : Payment.t) :
  Payment.valid p = true -> Payment.status p <> "partially_refunded".
Proof.
  unfold Payment.valid. rewrite !andb_true_iff.
  intros [[_ Hst] _] E. rewrite E in Hst. by simpl in Hst.
Qed.

(** A gateway refund pushed onto the array makes the document invalid. *)
Lemma pushed_invalid (p : Payment.t) (rs : list Refund.t)
    (d : RefundDetails.t) (st : string) :
  Payment.valid
    (Payment.set_status st (Payment.set_refunds (rs ++ [Refund.cast d]) p))
  = false.
Proof.
  apply not_true_is_false. intros H%valid_refunds. simpl in H.
  rewrite forallb_app in H. apply andb_true_iff in H as [_ H].
  by simpl in H.
Qed.

Lemma pushed_invalid' (p : Payment.t) (rs : list Refund.t)
    (d : RefundDetails.t) :
  Payment.valid (Payment.set_refunds (rs ++ [Refund.cast d]) p) = false.
Proof.
  apply not_true_is_false. intros H%valid_refunds. simpl in H.
  rewrite forallb_app in H. apply andb_true_iff in H as [_ H].
  by simpl in H.
Qed.

(** A sub-record with the status created makes the document invalid. *)
Lemma created_invalid (p : Payment.t) (rs : list Refund.t) (j : nat)
    (r : Refund.t) :
  rs !! j = Some r ->
  Payment.valid
    (Payment.set_refunds (<[j := Refund.set_status "created" r]> rs) p)
  = false.
Proof.
  intros Hj. apply not_true_is_false. intros H%valid_refunds. simpl in H.
  rewrite forallb_forall in H.
  specialize (H (Refund.set_status "created" r)).
  assert (In (Refund.set_status "created" r)
             (<[j := Refund.set_status "created" r]> rs)) as Hin.
  { apply list_elem_of_In. apply list_elem_of_lookup. exists j.
    apply list_lookup_insert_eq. by eapply lookup_lt_Some. }
  specialize (H Hin). unfold Refund.valid in H. simpl in H.
  by rewrite andb_false_r in H.
Qed.

(** ** The refund helper, step by step *)

(** [updateRefundStatus] in closed form. *)
Lemma updateRefundStatus_run (gw : Razorpay) (rid pid st : string)
    (s : Store) :
  updateRefundStatus gw rid pid st s
  = match list_find (fun p => Payment.paymentId p = Some pid) (payments s) with
    | None => (Thrown "Payment not found", s)
    | Some (i, p) =>
        match located_or_appended gw rid st (Payment.refunds p) with
        | inl message => (Thrown message, s)
        | inr rs =>
            let p1 := Payment.set_refunds rs p in
            let p2 :=
              if String.eqb st "processed"
              then Payment.set_status
                     (aggregate_status rs (Payment.amount p)) p1
              else p1 in
            let s1 :=
              if String.eqb st "processed"
              then set_orders
                     (mark_order_opt (Payment.orderId p) (Payment.status p2)
                                     (orders s)) s
              else s in
            if Payment.valid p2
            then (Returned p2, set_payments (<[i := p2]> (payments s)) s1)
            else (Thrown "Payment validation failed", s1)
        end
    end.
Proof.
  unfold updateRefundStatus, try_catch, bind, Payment_findOne,
    located_or_appended, aggregate_status.
  destruct (list_find _ (payments s)) as [[i p]|]; simpl; [|done].
  destruct (list_find _ (Payment.refunds p)) as [[j r]|]; simpl.
  - destruct (String.eqb st "processed"); simpl.
    + destruct (Order_findOneAndUpdate_run (Payment.orderId p)
                  (if ge_amount
                        (totalRefunded
                           (<[j := Refund.set_status st r]> (Payment.refunds p)))
                        (Payment.amount p)
                   then "refunded" else "partially_refunded") s)
        as (o & -> & _).
      unfold Payment_save. simpl.
      by destruct (Payment.valid _).
    + unfold Payment_save. simpl. by destruct (Payment.valid _).
  - destruct (refunds_fetch gw rid) as [d|m]; simpl; [|done].
    destruct (String.eqb st "processed"); simpl.
    + destruct (Order_findOneAndUpdate_run (Payment.orderId p)
                  (if ge_amount
                        (totalRefunded (Payment.refunds p ++ [Refund.cast d]))
                        (Payment.amount p)
                   then "refunded" else "partially_refunded") s)
        as (o & -> & _).
      unfold Payment_save. simpl.
      by destruct (Payment.valid _).
    + unfold Payment_save. simpl. by destruct (Payment.valid _).
Qed.

(** The sum does not look at the status of a sub-record. *)
Lemma totalRefunded_amounts (rs rs' : list Refund.t) :
  Refund.amount <$> rs = Refund.amount <$> rs' ->
  totalRefunded rs = totalRefunded rs'.
Proof.
  unfold totalRefunded. generalize (Number.of_Z 0).
  revert rs'. induction rs as [|r rs IH]; intros [|r' rs'] z H;
    try done.
  simpl in *. injection H as Hr Hrs. rewrite Hr. by apply IH.
Qed.

Lemma totalRefunded_marked (rs : list Refund.t) (j : nat) (r : Refund.t)
    (st : string) :
  rs !! j = Some r ->
  totalRefunded (<[j := Refund.set_status st r]> rs) = totalRefunded rs.
Proof.
  intros Hj. apply totalRefunded_amounts.
  rewrite list_fmap_insert. apply list_insert_id.
  by rewrite list_lookup_fmap, Hj.
Qed.

(** What [updateRefundStatus] can leave in the store: the Payment
    collection as it was, or the payment it found with the listed
    sub-record marked processed and the status refunded; the Order
    collection as it was, or one order marked. *)
Lemma updateRefundStatus_store (gw : Razorpay) (rid pid st : string)
    (s : Store) :
  st = "created" \/ st = "processed" ->
  let out := updateRefundStatus gw rid pid st s in
  (orders (snd out) = orders s
   \/ exists oid x, orders (snd out) = mark_order oid x (orders s))
  /\ ((payments (snd out) = payments s
       /\ exists msg, fst out = Thrown msg)
      \/ exists i p j r,
          st = "processed"
          /\ list_find (fun p => Payment.paymentId p = Some pid) (payments s)
             = Some (i, p)
          /\ list_find (fun r => Refund.id r = rid) (Payment.refunds p)
             = Some (j, r)
          /\ ge_amount (totalRefunded (Payment.refunds p)) (Payment.amount p)
             = true
          /\ Payment.valid (marked_refunded rid p) = true
          /\ fst out = Returned (marked_refunded rid p)
          /\ payments (snd out) = <[i := marked_refunded rid p]> (payments s)).
Proof.
  intros Hst. simpl. rewrite updateRefundStatus_run.
  destruct (list_find _ (payments s)) as [[i p]|] eqn:Hf; simpl.
  2:{ split; [by left|]. left. split; [done|]. eauto. }
  unfold located_or_appended.
  destruct (list_find _ (Payment.refunds p)) as [[j r]|] eqn:Hr; simpl.
  - pose proof Hr as (Hj & _ & _)%list_find_Some.
    destruct (String.eqb_spec st "processed") as [->|Hne]; simpl.
    + unfold aggregate_status. rewrite totalRefunded_marked by done.
      destruct (ge_amount _ _) eqn:Hge; simpl.
      * destruct (Payment.valid _) eqn:Hv; simpl.
        -- split; [destruct (Payment.orderId p); simpl; eauto|].
           right. exists i, p, j, r. unfold marked_refunded. rewrite Hr.
           repeat split; done.
        -- split; [destruct (Payment.orderId p); simpl; eauto|].
           left. split; [done|]. eauto.
      * assert (Payment.valid
                  (Payment.set_status "partially_refunded"
                     (Payment.set_refunds
                        (<[j := Refund.set_status "processed" r]>
                           (Payment.refunds p)) p)) = false) as ->.
        { apply not_true_is_false. intros H.
          by apply valid_status in H. }
        simpl.
        split; [destruct (Payment.orderId p); simpl; eauto|].
        left. split; [done|]. eauto.
    + destruct Hst as [-> | ->]; [|done].
      rewrite created_invalid by done. simpl.
      split; [by left|]. left. split; [done|]. eauto.
  - destruct (refunds_fetch gw rid) as [d|m]; simpl.
    2:{ split; [by left|]. left. split; [done|]. eauto. }
    destruct (String.eqb st "processed"); simpl.
    + rewrite pushed_invalid. simpl.
      split; [destruct (Payment.orderId p); simpl; eauto|].
      left. split; [done|]. eauto.
    + rewrite pushed_invalid'. simpl.
      split; [by left|]. left. split; [done|]. eauto.
Qed.

(** ** Binary64 arithmetic at work

    Three computations in which the numbers of the engine differ from the
    decimal numerals one reads. *)

(** [0 + 10/100 + 1020/100] is below [10.3]: refunds of 0.10 and 10.20 do
    not reach a charge of 10.30. *)
Example totalRefunded_below_the_charge :
  ge_amount
    (totalRefunded [Refund.mk "a" (Some "rfnd_a") 10 "processed";
                    Refund.mk "b" (Some "rfnd_b") 1020 "processed"])
    (Some (Number.of_Q (103 # 10)))
  = false.
Proof. vm_compute. reflexivity. Qed.

(** [Math.round(1.005 * 100)] is 100, not 101. *)
Example Math_round_of_a_product :
  Number.Math_round (Number.mul (Number.of_Q (1005 # 1000)) (Number.of_Z 100))
  = Number.of_Z 100.
Proof. vm_compute. reflexivity. Qed.

(** [19.99 * 100] is not 1999. *)
Example product_is_not_the_integer :
  Number.mul (Number.of_Q (1999 # 100)) (Number.of_Z 100)
  <> Number.of_Z 1999.
Proof. vm_compute. discriminate. Qed.

(** ** The event switch *)

Section Dispatch.

Variable gw : Razorpay.

(** A captured or failed payment event is never processed: with its
    entity the refused upsert throws, without it the property access
    does. *)
Lemma dispatch_payment_write (ev : WebhookBody) (s : Store) :
  event ev = "payment.captured" \/ event ev = "payment.failed" ->
  exists msg, dispatch gw ev s = (Thrown msg, s).
Proof.
  intros [Hev|Hev]; unfold dispatch, bind; rewrite Hev; simpl;
    rewrite payment_entity_run; destruct (payment_entity_of ev); eauto.
Qed.

Lemma dispatch_authorized (ev : WebhookBody) (s : Store) :
  event ev = "payment.authorized" ->
  dispatch gw ev s
  = match payment_entity_of ev with
    | Some _ => (Returned tt, s)
    | None => (Thrown "Cannot read properties of undefined", s)
    end.
Proof.
  intros Hev. unfold dispatch, bind. rewrite Hev. simpl.
  rewrite payment_entity_run. by destruct (payment_entity_of ev).
Qed.

Lemma dispatch_refund (ev : WebhookBody) (st : string) (s : Store) :
  (event ev = "refund.created" /\ st = "created")
  \/ (event ev = "refund.processed" /\ st = "processed") ->
  dispatch gw ev s
  = match refund_entity_of ev with
    | None => (Thrown "Cannot read properties of undefined", s)
    | Some e =>
        match updateRefundStatus gw (re_id e) (re_payment_id e) st s with
        | (Returned _, s') => (Returned tt, s')
        | (Thrown msg, s') => (Thrown msg, s')
        end
    end.
Proof.
  intros [[Hev ->]|[Hev ->]]; unfold dispatch, bind; rewrite Hev; simpl;
    rewrite refund_entity_run; destruct (refund_entity_of ev) as [e|];
    try done;
    by destruct (updateRefundStatus gw (re_id e) (re_payment_id e) _ s)
      as [[p|msg] s'].
Qed.

Lemma dispatch_other (ev : WebhookBody) (s : Store) :
  event ev <> "payment.authorized" ->
  event ev <> "payment.captured" ->
  event ev <> "payment.failed" ->
  event ev <> "refund.created" ->
  event ev <> "refund.processed" ->
  dispatch gw ev s = (Returned tt, s).
Proof.
  intros. unfold dispatch.
  by rewrite !(proj2 (String.eqb_neq _ _)) by done.
Qed.

(** The five names of the switch, or another one. *)
Lemma event_cases (ev : WebhookBody) :
  event ev = "payment.authorized" \/ event ev = "payment.captured"
  \/ event ev = "payment.failed" \/ event ev = "refund.created"
  \/ event ev = "refund.processed"
  \/ (event ev <> "payment.authorized" /\ event ev <> "payment.captured"
      /\ event ev <> "payment.failed" /\ event ev <> "refund.created"
      /\ event ev <> "refund.processed").
Proof.
  destruct (decide (event ev = "payment.authorized")); [tauto|].
  destruct (decide (event ev = "payment.captured")); [tauto|].
  destruct (decide (event ev = "payment.failed")); [tauto|].
  destruct (decide (event ev = "refund.created")); [tauto|].
  destruct (decide (event ev = "refund.processed")); tauto.
Qed.

(** What the switch can leave in the store. *)
Lemma dispatch_store (ev : WebhookBody) (s : Store) :
  let out := dispatch gw ev s in
  (orders (snd out) = orders s
   \/ exists oid x, orders (snd out) = mark_order oid x (orders s))
  /\ (payments (snd out) = payments s
      \/ exists e i p j r,
          event ev = "refund.processed"
          /\ refund_entity_of ev = Some e
          /\ list_find (fun p => Payment.paymentId p = Some (re_payment_id e))
                       (payments s) = Some (i, p)
          /\ list_find (fun r => Refund.id r = re_id e) (Payment.refunds p)
             = Some (j, r)
          /\ ge_amount (totalRefunded (Payment.refunds p)) (Payment.amount p)
             = true
          /\ Payment.valid (marked_refunded (re_id e) p) = true
          /\ fst out = Returned tt
          /\ payments (snd out)
             = <[i := marked_refunded (re_id e) p]> (payments s)).
Proof.
  simpl.
  assert (Href : forall st,
    (event ev = "refund.created" /\ st = "created")
    \/ (event ev = "refund.processed" /\ st = "processed") ->
    (orders (snd (dispatch gw ev s)) = orders s
     \/ exists oid x, orders (snd (dispatch gw ev s))
                      = mark_order oid x (orders s))
    /\ (payments (snd (dispatch gw ev s)) = payments s
        \/ exists e i p j r,
            event ev = "refund.processed"
            /\ refund_entity_of ev = Some e
            /\ list_find
                 (fun p => Payment.paymentId p = Some (re_payment_id e))
                 (payments s) = Some (i, p)
            /\ list_find (fun r => Refund.id r = re_id e) (Payment.refunds p)
               = Some (j, r)
            /\ ge_amount (totalRefunded (Payment.refunds p))
                         (Payment.amount p) = true
            /\ Payment.valid (marked_refunded (re_id e) p) = true
            /\ fst (dispatch gw ev s) = Returned tt
            /\ payments (snd (dispatch gw ev s))
               = <[i := marked_refunded (re_id e) p]> (payments s))).
  { intros st Hst. rewrite (dispatch_refund ev st s Hst).
    destruct (refund_entity_of ev) as [e|] eqn:He; [|by split; left].
    assert (st = "created" \/ st = "processed") as Hst' by tauto.
    pose proof (updateRefundStatus_store gw (re_id e) (re_payment_id e) st s
                  Hst') as [Ho Hp]. simpl in Ho, Hp.
    destruct (updateRefundStatus gw (re_id e) (re_payment_id e) st s)
      as [[p'|msg] s'] eqn:Hu; simpl in *.
    - split; [done|].
      destruct Hp as [[_ [? [=]]]|(i & p & j & r & -> & Hf & Hr & Hge & Hv & _ & Hp)].
      right. exists e, i, p, j, r.
      destruct Hst as [[_ ?]|[Hev _]]; [done|]. done.
    - split; [done|].
      destruct Hp as [[Hp _]|(i & p & j & r & _ & _ & _ & _ & _ & ? & _)];
        [by left|done]. }
  destruct (event_cases ev) as [H|[H|[H|[H|[H|(?&?&?&?&?)]]]]].
  - rewrite dispatch_authorized by done.
    destruct (payment_entity_of ev); by split; left.
  - destruct (dispatch_payment_write ev s) as [msg ->]; [tauto|].
    by split; left.
  - destruct (dispatch_payment_write ev s) as [msg ->]; [tauto|].
    by split; left.
  - apply (Href "created"). tauto.
  - apply (Href "processed"). tauto.
  - rewrite dispatch_other by done. by split; left.
Qed.

End Dispatch.

(** ** The webhook handler, step by step *)

(** The store after the webhook handler: untouched when the signature is
    refused, what the switch left otherwise. *)
Lemma handleWebhook_store
    (hmac : string -> string -> string) (stringify : WebhookBody -> string)
    (env : Env) (gw : Razorpay) (req : WebhookRequest) (s : Store) :
  snd (handleWebhook hmac stringify env gw req s) = s
  \/ (signature_passes hmac stringify env req
      /\ snd (handleWebhook hmac stringify env gw req s)
         = snd (dispatch gw (body req) s)).
Proof.
  unfold handleWebhook, try_catch, bind, createHmac, ret.
  destruct (x_razorpay_signature req) as [sig|] eqn:Hsig; simpl; [|by left].
  destruct (truthy sig) eqn:Ht; simpl; [|by left].
  destruct (RAZORPAY_WEBHOOK_SECRET env) as [key|] eqn:Hkey; simpl;
    [|by left].
  destruct (String.eqb_spec (hmac key (stringify (body req))) sig) as [He|He];
    simpl; [|by left].
  right. split.
  - exists key, sig. by rewrite truthy_true in Ht.
  - by destruct (dispatch gw (body req) s) as [[[]|msg] s1].
Qed.

(** ** The client verify path *)

Lemma verified_order_Some
    (hmac : string -> string -> string) (env : Env) (gw : Razorpay)
    (req : VerifyRequest) (oid : string) :
  verified_order hmac env gw req = Some oid <->
  exists pid d, verify_passes hmac env req oid pid
                /\ payments_fetch gw pid = Resolved d.
Proof.
  unfold verified_order, verify_passes. split.
  - destruct (razorpay_order_id req) as [o|]; [|done].
    destruct (razorpay_payment_id req) as [p|]; [|done].
    destruct (razorpay_signature req) as [sg|]; [|done].
    destruct (RAZORPAY_KEY_SECRET env) as [key|]; [|done].
    destruct (truthy o) eqn:Ho; [|done].
    destruct (truthy p) eqn:Hp; [|done].
    destruct (truthy sg) eqn:Hs; [|done]. simpl.
    destruct (String.eqb_spec (hmac key (o +:+ "|" +:+ p)) sg) as [<-|];
      [|done].
    destruct (payments_fetch gw p) as [d|m] eqn:Hf; [|done].
    intros [= <-]. exists p, d. split; [|done].
    apply truthy_true in Ho, Hp, Hs. exists key. done.
  - intros (pid & d & (key & -> & -> & Ho & -> & Hp & -> & Hs) & ->).
    rewrite !(proj2 (truthy_true _)) by done. simpl.
    by rewrite String.eqb_refl.
Qed.

(** [verifyPayment] in closed form: it always answers, never with 200,
    and the only thing it writes is the status paid on the order it was
    called for. *)
Lemma verifyPayment_run
    (hmac : string -> string -> string) (env : Env) (gw : Razorpay)
    (req : VerifyRequest) (s : Store) :
  exists r,
    verifyPayment hmac env gw req s
    = (Returned r,
       set_orders
         (mark_order_opt (verified_order hmac env gw req) "paid" (orders s))
         s)
    /\ success r = false
    /\ match verified_order hmac env gw req with
       | Some oid =>
           status_code r
           = (if decide (order_status_of oid s = None) then 404 else 500)
       | None => status_code r = 400 \/ status_code r = 500
       end.
Proof.
  destruct s as [ps os].
  unfold verifyPayment, verified_order, try_catch, bind, ret,
    validatePaymentVerification, createHmac, from_opt, await, throw,
    set_orders.
  destruct (razorpay_order_id req) as [o|]; simpl; [|eauto].
  destruct (truthy o) eqn:Ho; simpl.
  2:{ destruct (razorpay_payment_id req), (razorpay_signature req),
        (RAZORPAY_KEY_SECRET env); simpl; eauto. }
  destruct (razorpay_payment_id req) as [p|]; simpl; [|eauto].
  destruct (truthy p) eqn:Hp; simpl.
  2:{ destruct (razorpay_signature req), (RAZORPAY_KEY_SECRET env);
        simpl; eauto. }
  destruct (razorpay_signature req) as [sg|]; simpl; [|eauto].
  destruct (truthy sg) eqn:Hs; simpl.
  2:{ destruct (RAZORPAY_KEY_SECRET env); simpl; eauto. }
  destruct (RAZORPAY_KEY_SECRET env) as [key|]; simpl; [|eauto].
  destruct (String.eqb (hmac key (o +:+ "|" +:+ p)) sg); simpl; [|eauto].
  destruct (payments_fetch gw p) as [d|m]; simpl; [|eauto].
  unfold Order_findOneAndUpdate, mark_order, order_status_of, set_orders.
  simpl.
  destruct (list_find _ os) as [[i x]|]; simpl.
  - eexists. split; [reflexivity|]. done.
  - eexists. split; [reflexivity|]. done.
Qed.

(** ** What a handler leaves in the store *)

Section Store_after.

Variable hmac : string -> string -> string.
Variable stringify : WebhookBody -> string.
Variable env : Env.
Variable gw : Razorpay.

(** The Payment collection after one input: as it was, or one document
    the controller found under a payment id, with a listed sub-record
    marked processed and the status refunded. *)
Lemma apply_input_payments (s : Store) (i : Input) :
  payments (apply_input hmac stringify env gw s i) = payments s
  \/ exists pid rid k p,
      list_find (fun p => Payment.paymentId p = Some pid) (payments s)
      = Some (k, p)
      /\ (exists j r, list_find (fun r => Refund.id r = rid)
                                (Payment.refunds p) = Some (j, r))
      /\ payments (apply_input hmac stringify env gw s i)
         = <[k := marked_refunded rid p]> (payments s).
Proof.
  unfold apply_input. destruct i as [req|req]; simpl.
  - destruct (verifyPayment_run hmac env gw req s) as (r & -> & _). by left.
  - destruct (handleWebhook_store hmac stringify env gw req s) as [->|[_ ->]];
      [by left|].
    destruct (dispatch_store gw (body req) s) as [_ [Hp|Hp]]; [by left|].
    destruct Hp as (e & k & p & j & r & _ & _ & Hf & Hr & _ & _ & _ & Hp).
    right. exists (re_payment_id e), (re_id e), k, p. eauto.
Qed.

Lemma apply_input_orders (s : Store) (i : Input) :
  orders (apply_input hmac stringify env gw s i) = orders s
  \/ exists oid x,
      orders (apply_input hmac stringify env gw s i)
      = mark_order oid x (orders s).
Proof.
  unfold apply_input. destruct i as [req|req]; simpl.
  - destruct (verifyPayment_run hmac env gw req s) as (r & -> & _). simpl.
    destruct (verified_order hmac env gw req); simpl; eauto.
  - destruct (handleWebhook_store hmac stringify env gw req s) as [->|[_ ->]];
      [by left|].
    by destruct (dispatch_store gw (body req) s) as [Ho _].
Qed.

End Store_after.

(** ** The upsert of the webhook path *)

(** C10. A signed [payment.captured] or [payment.failed] webhook does not
    upsert anything: the upsert on [paymentId] is refused by the strict
    payment schema, the handler answers 500, and neither a Payment
    document is created nor an Order touched, with or without an order id
    in the event. *)
Theorem C10_upsert_refused
    (hmac : string -> string -> string) (stringify : WebhookBody -> string)
    (env : Env) (gw : Razorpay) (req : WebhookRequest) (s : Store) :
  signature_passes hmac stringify env req ->
  event (body req) = "payment.captured"
  \/ event (body req) = "payment.failed" ->
  exists r,
    handleWebhook hmac stringify env gw req s = (Returned r, s)
    /\ status_code r = 500
    /\ success r = false.
Proof.
  intros Hsig Hev.
  rewrite (handleWebhook_passes hmac stringify env gw req s Hsig).
  destruct (dispatch_payment_write gw (body req) s Hev) as [msg ->]. eauto.
Qed.

(** C10 on the sample installation: a signed [payment.captured] for a
    payment id the store does not know is answered 500; no Payment
    document exists afterwards and the order is still pending. *)
Lemma C10_witness :
  exists r,
    handleWebhook demo_hmac demo_stringify demo_env demo_gateway
      (signed_webhook demo_hmac demo_stringify "whsec"
         (payment_event "payment.captured" "pay_NEW" (Some "order_ABC")))
      store_pending
    = (Returned r, store_pending)
    /\ status_code r = 500
    /\ success r = false.
Proof.
  apply (C10_upsert_refused
           demo_hmac demo_stringify demo_env demo_gateway
           (signed_webhook demo_hmac demo_stringify "whsec"
              (payment_event "payment.captured" "pay_NEW" (Some "order_ABC")))
           store_pending).
  - exists "whsec", "hmac:whsec:payment.captured". repeat split. discriminate.
  - by left.
Defined.

(** ** The client verify path: the scenario of the specification *)

Lemma order_status_of_marked (oid st : string) (s : Store) :
  order_status_of oid s <> None ->
  order_status_of oid (set_orders (mark_order oid st (orders s)) s) = Some st.
Proof.
  unfold order_status_of. simpl. rewrite list_find_mark_order.
  destruct (decide (oid = oid)) as [_|]; [|done].
  by destruct (list_find _ (orders s)) as [[i o]|].
Qed.

(** C7. A verify call with the right signature for an order that is in
    the store, the gateway resolving the payment, is answered 500, not
    200: the order has been set to paid (not processing) when
    [Payment.create] is rejected by validation, so no Payment document
    is created. *)
Theorem C7_verify_marks_order_paid
    (hmac : string -> string -> string) (env : Env) (gw : Razorpay)
    (req : VerifyRequest) (s : Store) (oid pid : string)
    (d : PaymentDetails.t) :
  verify_passes hmac env req oid pid ->
  payments_fetch gw pid = Resolved d ->
  order_status_of oid s <> None ->
  exists r s',
    verifyPayment hmac env gw req s = (Returned r, s')
    /\ status_code r = 500
    /\ success r = false
    /\ payments s' = payments s
    /\ orders s' = mark_order oid "paid" (orders s)
    /\ order_status_of oid s' = Some "paid".
Proof.
  intros Hv Hf Ho.
  assert (verified_order hmac env gw req = Some oid) as Hvo.
  { apply verified_order_Some. eauto. }
  destruct (verifyPayment_run hmac env gw req s) as (r & Hr & Hs & Hc).
  rewrite Hvo in Hr, Hc. simpl in Hr.
  rewrite decide_False in Hc by done.
  exists r, (set_orders (mark_order oid "paid" (orders s)) s).
  repeat split; try done. by apply order_status_of_marked.
Qed.

(** C7 on the scenario of the specification: [order_ABC] pending,
    [pay_XYZ] captured at the gateway, the signature right. *)
Lemma C7_witness :
  exists r s',
    verifyPayment demo_hmac demo_env demo_gateway
      (signed_verify demo_hmac "key_secret" "order_ABC" "pay_XYZ" "user_1")
      store_pending
    = (Returned r, s')
    /\ status_code r = 500
    /\ success r = false
    /\ payments s' = payments store_pending
    /\ orders s' = mark_order "order_ABC" "paid" (orders store_pending)
    /\ order_status_of "order_ABC" s' = Some "paid".
Proof.
  apply (C7_verify_marks_order_paid
           demo_hmac demo_env demo_gateway
           (signed_verify demo_hmac "key_secret" "order_ABC" "pay_XYZ"
              "user_1")
           store_pending "order_ABC" "pay_XYZ"
           (PaymentDetails.mk "pay_XYZ" 10000 "INR" "captured" "card"
              "buyer@example.com" "9999999999")).
  - exists "key_secret". repeat split; discriminate.
  - reflexivity.
  - discriminate.
Defined.

(** ** The answer to a signed webhook *)





(** ** Refund aggregation *)

Section Refund_webhooks.

Variable hmac : string -> string -> string.
Variable stringify : WebhookBody -> string.
Variable env : Env.
Variable gw : Razorpay.

(** The answer to a signed refund event whose entity is in the payload,
    in terms of [updateRefundStatus]. *)
Lemma handleWebhook_refund (req : WebhookRequest) (e : RefundEntity)
    (st : string) (s : Store) :
  signature_passes hmac stringify env req ->
  (event (body req) = "refund.created" /\ st = "created")
  \/ (event (body req) = "refund.processed" /\ st = "processed") ->
  refund_entity_of (body req) = Some e ->
  exists r,
    handleWebhook hmac stringify env gw req s
    = (Returned r,
       snd (updateRefundStatus gw (re_id e) (re_payment_id e) st s))
    /\ status_code r
       = match fst (updateRefundStatus gw (re_id e) (re_payment_id e) st s)
         with
         | Returned _ => 200
         | Thrown _ => 500
         end.
Proof.
  intros Hsig Hev He.
  rewrite (handleWebhook_passes hmac stringify env gw req s Hsig).
  rewrite (dispatch_refund gw (body req) st s Hev), He.
  destruct (updateRefundStatus gw (re_id e) (re_payment_id e) st s)
    as [[p|msg] s']; simpl; eauto.
Qed.


End Refund_webhooks.

(** C4. A signed [refund.processed] event does not locate or append the
    refund and then derive the status from the processed sub-records.
    When the refund is not listed on a payment the
    controller finds under the event's payment id, the event is answered
    500 and no Payment is changed: nothing is appended.  Whenever the
    Payment collection does change, the payment found has got the status
    refunded because the sum over all its sub-records, whatever their
    status, reaches its amount.  The status partially_refunded is never
    written on a Payment. *)
Theorem C4_refund_processed_not_recorded
    (hmac : string -> string -> string) (stringify : WebhookBody -> string)
    (env : Env) (gw : Razorpay) (req : WebhookRequest) (s : Store)
    (e : RefundEntity) :
  signature_passes hmac stringify env req ->
  event (body req) = "refund.processed" ->
  refund_entity_of (body req) = Some e ->
  exists r s',
    handleWebhook hmac stringify env gw req s = (Returned r, s')
    /\ (~ refund_listed (re_id e) (re_payment_id e) s ->
        status_code r = 500 /\ payments s' = payments s)
    /\ (payments s' = payments s
        \/ exists i p,
            list_find (fun p => Payment.paymentId p = Some (re_payment_id e))
                      (payments s) = Some (i, p)
            /\ ge_amount (totalRefunded (Payment.refunds p))
                         (Payment.amount p) = true
            /\ payments s' = <[i := marked_refunded (re_id e) p]> (payments s))
    /\ Forall (fun p' => Payment.status p' = "partially_refunded" ->
                         p' ∈ payments s)
              (payments s').
Proof.
  intros Hsig Hev He.
  destruct (handleWebhook_refund hmac stringify env gw req e "processed" s
              Hsig ltac:(by right) He) as (r & Hr & Hc).
  exists r, (snd (updateRefundStatus gw (re_id e) (re_payment_id e)
                    "processed" s)).
  split; [done|].
  pose proof (updateRefundStatus_store gw (re_id e) (re_payment_id e)
                "processed" s ltac:(by right)) as [_ Hp]. simpl in Hp.
  destruct Hp as [[Hp [msg Hm]]
                 |(i & p & j & r' & _ & Hf & Hl & Hge & Hv & _ & Hp)].
  - rewrite Hm in Hc. rewrite Hp.
    split; [done|]. split; [by left|]. by apply Forall_forall.
  - split; [|split].
    + intros Hnl. exfalso. apply Hnl. by exists i, p, j, r'.
    + right. by exists i, p.
    + rewrite Hp. apply Forall_forall. intros q Hq Hst.
      apply list_elem_of_lookup in Hq as [k Hk].
      destruct (decide (k = i)) as [->|Hne].
      * pose proof Hf as (Hi & _ & _)%list_find_Some.
        rewrite list_lookup_insert_eq in Hk by (by eapply lookup_lt_Some).
        injection Hk as <-. unfold marked_refunded in Hst.
        rewrite Hl in Hst. done.
      * rewrite list_lookup_insert_ne in Hk by done.
        by eapply list_elem_of_lookup_2.
Qed.

(** C4 on the sample installation: the payment model holds [pay_XYZ],
    captured for 100.00; the gateway reports the refund [rfnd_2] of
    100.00 as processed.  The event is answered 500 and the payment is
    still what it was. *)
Lemma C4_witness :
  exists r s',
    handleWebhook demo_hmac demo_stringify demo_env demo_gateway
      (signed_webhook demo_hmac demo_stringify "whsec"
         (refund_event "refund.processed" "rfnd_2" "pay_XYZ"))
      store_captured
    = (Returned r, s')
    /\ status_code r = 500
    /\ payments s' = [demo_payment "captured" []].
Proof.
  destruct (C4_refund_processed_not_recorded
              demo_hmac demo_stringify demo_env demo_gateway
              (signed_webhook demo_hmac demo_stringify "whsec"
                 (refund_event "refund.processed" "rfnd_2" "pay_XYZ"))
              store_captured (mkRefundEntity "rfnd_2" "pay_XYZ"))
    as (r & s' & Heq & Hnl & _).
  - exists "whsec", "hmac:whsec:refund.processed". repeat split. discriminate.
  - reflexivity.
  - reflexivity.
  - exists r, s'. split; [done|]. apply Hnl.
    intros (i & p & j & x & Hf & _). discriminate Hf.
Defined.

(** ** No cap on the refunded total *)

(** [p'] is [p] with nothing but statuses changed: the same fields, the
    same refund sub-records under the same ids with the same amounts. *)
Lemma marked_refunded_same (rid : string) (p : Payment.t) :
  payment_core (marked_refunded rid p) = payment_core p
  /\ refund_key <$> Payment.refunds (marked_refunded rid p)
     = refund_key <$> Payment.refunds p.
Proof.
  unfold marked_refunded.
  destruct (list_find _ (Payment.refunds p)) as [[j r]|] eqn:Hr; [|done].
  split; [done|]. simpl.
  apply list_find_Some in Hr as (Hj & _ & _).
  rewrite list_fmap_insert. apply list_insert_id.
  by rewrite list_lookup_fmap, Hj.
Qed.

Section Runs.

Variable hmac : string -> string -> string.
Variable stringify : WebhookBody -> string.
Variable env : Env.
Variable gw : Razorpay.

(** Along a run, the Payment collection keeps its length, and every
    document its fields and its refund sub-records, statuses apart. *)
Lemma run_same_documents (inputs : list Input) (s : Store) :
  Forall2 (fun p p' =>
             payment_core p' = payment_core p
             /\ refund_key <$> Payment.refunds p'
                = refund_key <$> Payment.refunds p)
          (payments s) (payments (run hmac stringify env gw inputs s)).
Proof.
  revert s. induction inputs as [|i inputs IH]; intros s; simpl.
  - apply Forall2_same_length_lookup. split; [done|].
    intros k p p' Hp Hp'. by assert (p' = p) as -> by congruence.
  - specialize (IH (apply_input hmac stringify env gw s i)).
    destruct (apply_input_payments hmac stringify env gw s i)
      as [Hs|(pid & rid & k & p & Hf & _ & Hs)]; rewrite Hs in IH; [done|].
    apply list_find_Some in Hf as (Hk & _ & _).
    apply Forall2_same_length_lookup.
    apply Forall2_same_length_lookup in IH as [Hlen IH].
    rewrite length_insert in Hlen. split; [done|].
    intros n q q' Hq Hq'.
    destruct (decide (n = k)) as [->|Hne].
    + destruct (IH k (marked_refunded rid p) q') as [Hc Hr]; [|done|].
      { apply list_lookup_insert_eq. by eapply lookup_lt_Some. }
      assert (q = p) as -> by congruence.
      destruct (marked_refunded_same rid p) as [Hc' Hr'].
      split; congruence.
    + apply (IH n q q'); [|done]. by rewrite list_lookup_insert_ne.
Qed.

(** A document without the field [paymentId] is out of the controller's
    reach: no run changes it. *)
Lemma run_out_of_reach (inputs : list Input) (s : Store) (k : nat)
    (p : Payment.t) :
  payments s !! k = Some p ->
  Payment.paymentId p = None ->
  payments (run hmac stringify env gw inputs s) !! k = Some p.
Proof.
  revert s. induction inputs as [|i inputs IH]; intros s Hk Hp; simpl;
    [done|].
  apply IH; [|done].
  destruct (apply_input_payments hmac stringify env gw s i)
    as [->|(pid & rid & n & q & Hf & _ & ->)]; [done|].
  apply list_find_Some in Hf as (Hn & Hq & _).
  rewrite list_lookup_insert_ne; [done|]. intros ->. congruence.
Qed.


End Runs.



(** ** Terminal states *)



(** ** Delivering the same input twice *)

Lemma located_or_appended_again (gw : Razorpay) (rid st : string)
    (rs rs' : list Refund.t) :
  located_or_appended gw rid st rs = inr rs' ->
  forallb Refund.valid rs' = true ->
  located_or_appended gw rid st rs' = inr rs'.
Proof.
  unfold located_or_appended.
  destruct (list_find _ rs) as [[j r]|] eqn:Hr.
  - intros [= <-] _.
    rewrite (list_find_insert_hit _ rs j r (Refund.set_status st r) Hr).
    + by rewrite list_insert_insert_eq.
    + by apply list_find_Some in Hr as (_ & ? & _).
  - destruct (refunds_fetch gw rid) as [d|m]; [|done].
    intros [= <-] Hv. rewrite forallb_app in Hv.
    apply andb_true_iff in Hv as [_ Hv]. by simpl in Hv.
Qed.

Lemma set_status_refunds_twice (a : string) (rs : list Refund.t)
    (p : Payment.t) :
  Payment.set_status a
    (Payment.set_refunds rs (Payment.set_status a (Payment.set_refunds rs p)))
  = Payment.set_status a (Payment.set_refunds rs p).
Proof. done. Qed.

Lemma set_refunds_twice (rs : list Refund.t) (p : Payment.t) :
  Payment.set_refunds rs (Payment.set_refunds rs p) = Payment.set_refunds rs p.
Proof. done. Qed.

(** [updateRefundStatus] called again on the store it has left: the same
    outcome, the same store. *)
Lemma updateRefundStatus_twice (gw : Razorpay) (rid pid st : string)
    (s : Store) :
  updateRefundStatus gw rid pid st
    (snd (updateRefundStatus gw rid pid st s))
  = updateRefundStatus gw rid pid st s.
Proof.
  rewrite (updateRefundStatus_run gw rid pid st s).
  destruct (list_find _ (payments s)) as [[i p]|] eqn:Hf; simpl.
  2:{ rewrite updateRefundStatus_run. by rewrite Hf. }
  destruct (located_or_appended gw rid st (Payment.refunds p)) as [m|rs]
    eqn:Hl; simpl.
  { rewrite updateRefundStatus_run. by rewrite Hf, Hl. }
  pose proof Hf as (Hi & Hpid & _)%list_find_Some.
  destruct (String.eqb st "processed") eqn:Hst; simpl.
  - destruct (Payment.valid _) eqn:Hv; simpl.
    + rewrite updateRefundStatus_run. simpl.
      rewrite (list_find_insert_hit _ (payments s) i p
                 (Payment.set_status
                    (aggregate_status rs (Payment.amount p))
                    (Payment.set_refunds rs p)) Hf) by done.
      simpl.
      rewrite (located_or_appended_again gw rid st _ rs Hl)
        by (by apply valid_refunds in Hv).
      simpl. rewrite Hst. simpl. rewrite set_status_refunds_twice, Hv.
      rewrite list_insert_insert_eq.
      unfold set_payments, set_orders. simpl.
      by rewrite mark_order_opt_idem.
    + rewrite updateRefundStatus_run. simpl.
      rewrite Hf, Hl. simpl. rewrite Hst. simpl. rewrite Hv.
      unfold set_orders. simpl. by rewrite mark_order_opt_idem.
  - destruct (Payment.valid _) eqn:Hv; simpl.
    + rewrite updateRefundStatus_run. simpl.
      rewrite (list_find_insert_hit _ (payments s) i p
                 (Payment.set_refunds rs p) Hf) by done.
      simpl.
      rewrite (located_or_appended_again gw rid st _ rs Hl)
        by (by apply valid_refunds in Hv).
      simpl. rewrite Hst. simpl. rewrite set_refunds_twice, Hv.
      unfold set_payments. simpl.
      by rewrite list_insert_insert_eq.
    + rewrite updateRefundStatus_run.
      rewrite Hf, Hl. simpl. rewrite Hst. simpl. by rewrite Hv.
Qed.

Lemma dispatch_twice (gw : Razorpay) (ev : WebhookBody) (s : Store) :
  dispatch gw ev (snd (dispatch gw ev s)) = dispatch gw ev s.
Proof.
  assert (Href : forall st,
    (event ev = "refund.created" /\ st = "created")
    \/ (event ev = "refund.processed" /\ st = "processed") ->
    dispatch gw ev (snd (dispatch gw ev s)) = dispatch gw ev s).
  { intros st Hst. rewrite !(dispatch_refund gw ev st _ Hst).
    destruct (refund_entity_of ev) as [e|]; [|done].
    pose proof (updateRefundStatus_twice gw (re_id e) (re_payment_id e) st s)
      as Ht.
    destruct (updateRefundStatus gw (re_id e) (re_payment_id e) st s)
      as [[p|msg] s1]; simpl in *; by rewrite Ht. }
  destruct (event_cases ev) as [H|[H|[H|[H|[H|(?&?&?&?&?)]]]]].
  - rewrite !dispatch_authorized by done. by destruct (payment_entity_of ev).
  - destruct (dispatch_payment_write gw ev s) as [msg Hd]; [tauto|].
    by rewrite Hd.
  - destruct (dispatch_payment_write gw ev s) as [msg Hd]; [tauto|].
    by rewrite Hd.
  - apply (Href "created"). tauto.
  - apply (Href "processed"). tauto.
  - by rewrite !dispatch_other.
Qed.

Lemma handleWebhook_twice
    (hmac : string -> string -> string) (stringify : WebhookBody -> string)
    (env : Env) (gw : Razorpay) (req : WebhookRequest) (s : Store) :
  handleWebhook hmac stringify env gw req
    (snd (handleWebhook hmac stringify env gw req s))
  = handleWebhook hmac stringify env gw req s.
Proof.
  pose proof (dispatch_twice gw (body req) s) as Hd.
  unfold handleWebhook, try_catch, bind, createHmac, ret in *.
  destruct (x_razorpay_signature req) as [sig|]; simpl; [|done].
  destruct (truthy sig); simpl; [|done].
  destruct (RAZORPAY_WEBHOOK_SECRET env) as [key|]; simpl; [|done].
  destruct (String.eqb (hmac key (stringify (body req))) sig); simpl;
    [|done].
  destruct (dispatch gw (body req) s) as [[[]|msg] s1]; simpl in *;
    by rewrite Hd.
Qed.

Lemma verifyPayment_twice
    (hmac : string -> string -> string) (env : Env) (gw : Razorpay)
    (req : VerifyRequest) (s : Store) :
  verifyPayment hmac env gw req (snd (verifyPayment hmac env gw req s))
  = verifyPayment hmac env gw req s.
Proof.
  destruct s as [ps os].
  unfold verifyPayment, try_catch, bind, ret,
    validatePaymentVerification, createHmac, from_opt, await, throw.
  destruct (razorpay_order_id req) as [o|]; simpl; [|done].
  destruct (truthy o); simpl; [|done].
  destruct (razorpay_payment_id req) as [p|]; simpl; [|done].
  destruct (truthy p); simpl; [|done].
  destruct (razorpay_signature req) as [sg|]; simpl; [|done].
  destruct (truthy sg); simpl; [|done].
  destruct (RAZORPAY_KEY_SECRET env) as [key|]; simpl; [|done].
  destruct (String.eqb (hmac key (o +:+ "|" +:+ p)) sg); simpl; [|done].
  destruct (payments_fetch gw p) as [d|m]; simpl; [|done].
  unfold Order_findOneAndUpdate. simpl.
  destruct (list_find _ os) as [[i x]|] eqn:Hf; simpl.
  - rewrite (list_find_insert_hit _ os i x (Order.set_status "paid" x) Hf).
    + simpl. unfold set_orders. simpl. by rewrite list_insert_insert_eq.
    + by apply list_find_Some in Hf as (_ & ? & _).
  - by rewrite Hf.
Qed.

(** C1. An input handled a second time is a no-op: for every store, every
    verify call and every webhook, the second delivery is answered as the
    first was and leaves the store, Payments with their statuses and
    refund sub-records and Orders, exactly as the first delivery left
    it.  In particular a duplicate [refund.processed] adds no refund
    sub-record and changes no refunded total. *)
Theorem C1_second_delivery
    (hmac : string -> string -> string) (stringify : WebhookBody -> string)
    (env : Env) (gw : Razorpay) (i : Input) (s : Store) :
  let first := handle hmac stringify env gw i s in
  let second := handle hmac stringify env gw i (snd first) in
  snd second = snd first
  /\ fst second = fst first
  /\ (refundedAmount <$> payments (snd second))
     = (refundedAmount <$> payments (snd first)).
Proof.
  simpl. destruct i as [req|req]; simpl.
  - by rewrite verifyPayment_twice.
  - by rewrite handleWebhook_twice.
Qed.

(** ** Arrival order *)

Section Arrival_order.

Variable hmac : string -> string -> string.
Variable stringify : WebhookBody -> string.
Variable env : Env.
Variable gw : Razorpay.

(** The order an input of the payment channel marks as paid, if any. *)
Lemma payment_channel_effect (i : Input) (s : Store) :
  payment_channel i ->
  exists oid,
    apply_input hmac stringify env gw s i
    = set_orders (mark_order_opt oid "paid" (orders s)) s
    /\ forall s',
        apply_input hmac stringify env gw s' i
        = set_orders (mark_order_opt oid "paid" (orders s')) s'.
Proof.
  intros Hi. destruct i as [req|req]; simpl in Hi.
  - exists (verified_order hmac env gw req).
    split; [|intros s']; unfold apply_input; simpl.
    + by destruct (verifyPayment_run hmac env gw req s) as (r & -> & _).
    + by destruct (verifyPayment_run hmac env gw req s') as (r & -> & _).
  - exists None.
    assert (forall s0, apply_input hmac stringify env gw s0 (Webhook req) = s0)
      as Hs.
    { intros s0. unfold apply_input. simpl.
      destruct (handleWebhook_store hmac stringify env gw req s0)
        as [->|[_ ->]]; [done|].
      destruct Hi as [H|[H|H]].
      - rewrite dispatch_authorized by done.
        by destruct (payment_entity_of (body req)).
      - by destruct (dispatch_payment_write gw (body req) s0) as [msg ->];
          [tauto|].
      - by destruct (dispatch_payment_write gw (body req) s0) as [msg ->];
          [tauto|]. }
    split; [|intros s']; rewrite Hs; simpl; by rewrite set_orders_same.
Qed.

Lemma run_payment_channel (inputs inputs' : list Input) (s : Store) :
  Forall payment_channel inputs ->
  Permutation inputs inputs' ->
  run hmac stringify env gw inputs s = run hmac stringify env gw inputs' s.
Proof.
  intros HF HP. revert s. induction HP as [|i l l' HP IH|i j l|l l' l'' HP1 IH1 HP2 IH2];
    intros s; simpl.
  - done.
  - apply IH. by inversion HF.
  - f_equal.
    inversion HF as [|? ? Hj HF']; subst.
    inversion HF' as [|? ? Hi _]; subst.
    destruct (payment_channel_effect i s Hi) as (a & _ & Ha).
    destruct (payment_channel_effect j s Hj) as (b & _ & Hb).
    rewrite !Ha, !Hb. unfold set_orders. simpl.
    by rewrite mark_order_opt_comm.
  - rewrite IH1 by done. apply IH2.
    by eapply Permutation_Forall.
Qed.

End Arrival_order.

(** C3. Verify calls and payment webhooks ([payment.authorized],
    [payment.captured], [payment.failed]) handled one at a time leave the
    same store, Payments and Orders, under every arrival order. *)
Theorem C3_arrival_order
    (hmac : string -> string -> string) (stringify : WebhookBody -> string)
    (env : Env) (gw : Razorpay) (inputs inputs' : list Input) (s : Store) :
  Forall payment_channel inputs ->
  Permutation inputs inputs' ->
  run hmac stringify env gw inputs s = run hmac stringify env gw inputs' s.
Proof. apply run_payment_channel. Qed.

(** C3 on the scenario of the specification: the verify call before and
    after the [payment.captured] webhook. *)
Lemma C3_witness :
  run demo_hmac demo_stringify demo_env demo_gateway
    [VerifyCall (signed_verify demo_hmac "key_secret" "order_ABC" "pay_XYZ"
                               "user_1");
     Webhook (signed_webhook demo_hmac demo_stringify "whsec"
                (payment_event "payment.captured" "pay_XYZ"
                               (Some "order_ABC")))]
    store_pending
  = run demo_hmac demo_stringify demo_env demo_gateway
      [Webhook (signed_webhook demo_hmac demo_stringify "whsec"
                  (payment_event "payment.captured" "pay_XYZ"
                                 (Some "order_ABC")));
       VerifyCall (signed_verify demo_hmac "key_secret" "order_ABC" "pay_XYZ"
                                 "user_1")]
      store_pending.
Proof.
  apply (C3_arrival_order demo_hmac demo_stringify demo_env demo_gateway).
  - apply Forall_cons. split; [done|].
    apply Forall_cons. split; [|done]. simpl. right. by left.
  - apply perm_swap.
Defined.

(** * Further properties of the controller *)

(** ** Nothing is deleted, nothing is re-keyed *)

Lemma mark_order_core (oid st : string) (os : list Order.t) :
  order_core <$> mark_order oid st os = order_core <$> os.
Proof.
  unfold mark_order.
  destruct (list_find _ os) as [[i o]|] eqn:Hf; [|done].
  apply list_find_Some in Hf as (Hi & _ & _).
  rewrite list_fmap_insert. apply list_insert_id.
  by rewrite list_lookup_fmap, Hi.
Qed.

(** X1. Whatever verify calls and webhooks arrive, in whatever order, no
    Payment document is ever deleted, moved or re-keyed: every document
    of the initial collection is still at its position, with the same
    fields apart from its status and its refunds, and with every refund
    sub-record it had still in place under the same id and amount; new
    documents only come after the old ones. *)
Theorem run_never_deletes_payments
    (hmac : string -> string -> string) (stringify : WebhookBody -> string)
    (env : Env) (gw : Razorpay) (inputs : list Input) (s : Store) :
  exists kept extra,
    payments (run hmac stringify env gw inputs s) = kept ++ extra
    /\ Forall2 (fun p p' =>
                  payment_core p' = payment_core p
                  /\ (refund_key <$> Payment.refunds p)
                     `prefix_of` (refund_key <$> Payment.refunds p'))
               (payments s) kept.
Proof.
  exists (payments (run hmac stringify env gw inputs s)), [].
  split; [by rewrite app_nil_r|].
  eapply Forall2_impl; [apply run_same_documents|].
  intros p p' [Hc Hr]. split; [done|]. by rewrite Hr.
Qed.

(** X2. Whatever verify calls and webhooks arrive, the Order collection
    keeps its documents: none is created or deleted, and of an order
    only the status can change. *)
Theorem run_changes_order_status_only
    (hmac : string -> string -> string) (stringify : WebhookBody -> string)
    (env : Env) (gw : Razorpay) (inputs : list Input) (s : Store) :
  order_core <$> orders (run hmac stringify env gw inputs s)
  = order_core <$> orders s.
Proof.
  revert s. induction inputs as [|i inputs IH]; intros s; simpl; [done|].
  rewrite IH.
  destruct (apply_input_orders hmac stringify env gw s i)
    as [->|(oid & x & ->)]; [done|apply mark_order_core].
Qed.

(** ** An event is about one payment *)

(** X3. A webhook leaves the document of every payment other than the one
    its entity names exactly as it was, signed or not, processed or
    not. *)
Theorem handleWebhook_touches_one_payment
    (hmac : string -> string -> string) (stringify : WebhookBody -> string)
    (env : Env) (gw : Razorpay) (req : WebhookRequest) (s : Store)
    (i : nat) (p : Payment.t) :
  payments s !! i = Some p ->
  (forall e, payment_entity_of (body req) = Some e ->
             Some (pe_id e) <> Payment.paymentId p) ->
  (forall e, refund_entity_of (body req) = Some e ->
             Some (re_payment_id e) <> Payment.paymentId p) ->
  payments (snd (handleWebhook hmac stringify env gw req s)) !! i = Some p.
Proof.
  intros Hi Hpay Href.
  destruct (handleWebhook_store hmac stringify env gw req s) as [->|[_ ->]];
    [done|].
  destruct (dispatch_store gw (body req) s)
    as [_ [->|(e & k & q & j & r & _ & He & Hf & _ & _ & _ & _ & ->)]];
    [done|].
  apply list_find_Some in Hf as (Hk & Hq & _).
  rewrite list_lookup_insert_ne; [done|].
  intros ->. apply (Href e He). congruence.
Qed.

(** X3 on the sample installation: a signed [payment.failed] about another
    payment leaves the document of [pay_XYZ] alone. *)
Lemma handleWebhook_touches_one_payment_witness :
  payments
    (snd (handleWebhook demo_hmac demo_stringify demo_env demo_gateway
            (signed_webhook demo_hmac demo_stringify "whsec"
               (payment_event "payment.failed" "pay_other" None))
            store_captured))
  !! 0%nat
  = Some (demo_payment "captured" []).
Proof.
  apply (handleWebhook_touches_one_payment
           demo_hmac demo_stringify demo_env demo_gateway
           (signed_webhook demo_hmac demo_stringify "whsec"
              (payment_event "payment.failed" "pay_other" None))
           store_captured 0%nat (demo_payment "captured" [])).
  - reflexivity.
  - intros e [= <-]. discriminate.
  - intros e. discriminate.
Defined.

(** ** The verify call never succeeds *)


(** ** Refunds requested through the API *)

(** [processRefund] in closed form: it never writes. *)
Lemma processRefund_run (pr : RefundOptions -> promise RefundDetails.t)
    (req : RefundRequest) (s : Store) :
  exists r,
    processRefund pr req s = (Returned r, s)
    /\ success r = false
    /\ status_code r
       = match refund_paymentId req with
         | Some pid =>
             if truthy pid
             then match list_find (fun p => Payment.paymentId p = Some pid)
                                  (payments s) with
                  | Some _ => 500
                  | None => 404
                  end
             else 400
         | None => 400
         end.
Proof.
  unfold processRefund, try_catch, bind, Payment_findOne, await.
  destruct (refund_paymentId req) as [pid|]; simpl; [|eauto].
  destruct (truthy pid); simpl; [|eauto].
  destruct (list_find _ (payments s)) as [[i p]|]; simpl; [|eauto].
  destruct (pr _) as [d|m]; simpl; [|eauto].
  unfold Payment_save. rewrite pushed_invalid. simpl. eauto.
Qed.

(** X6. [processRefund] always answers, with 200, 400, 404 or 500, and
    every answer other than 200 leaves the store as it was: a request
    without payment id is answered 400, one for a payment that is not in
    the store 404, and a refund the gateway rejects 500, none of them
    recording anything. *)
Theorem processRefund_writes_only_on_200
    (pr : RefundOptions -> promise RefundDetails.t) (req : RefundRequest)
    (s : Store) :
  exists r s',
    processRefund pr req s = (Returned r, s')
    /\ (status_code r = 200 \/ status_code r = 400
        \/ status_code r = 404 \/ status_code r = 500)
    /\ (status_code r <> 200 -> s' = s)
    /\ (truthy_opt (refund_paymentId req) = false -> status_code r = 400)
    /\ (forall pid,
           refund_paymentId req = Some pid -> pid <> "" ->
           list_find (fun p => Payment.paymentId p = Some pid) (payments s)
           = None
           -> status_code r = 404)
    /\ (forall pid i p message,
           refund_paymentId req = Some pid -> pid <> "" ->
           list_find (fun p => Payment.paymentId p = Some pid) (payments s)
           = Some (i, p) ->
           pr (refund_options req pid) = Rejected message ->
           status_code r = 500).
Proof.
  destruct (processRefund_run pr req s) as (r & Hr & _ & Hc).
  exists r, s. split; [done|]. rewrite Hc.
  split; [|split; [done|split; [|split]]].
  - destruct (refund_paymentId req) as [pid|]; [|tauto].
    destruct (truthy pid); [|tauto].
    destruct (list_find _ (payments s)); tauto.
  - destruct (refund_paymentId req) as [pid|]; [|done]. simpl.
    by intros ->.
  - intros pid -> Hne Hf. by rewrite (proj2 (truthy_true pid) Hne), Hf.
  - intros pid i p m -> Hne Hf _.
    by rewrite (proj2 (truthy_true pid) Hne), Hf.
Qed.

(** X7. [processRefund] never answers 200 and never records a refund:
    when the gateway has accepted the refund, [save] rejects the payment
    onto which the gateway's refund was pushed, the handler answers 500,
    and neither the Payment nor the Order shows the refund that was
    issued. *)
Theorem processRefund_never_records
    (pr : RefundOptions -> promise RefundDetails.t) (req : RefundRequest)
    (s : Store) :
  exists r,
    processRefund pr req s = (Returned r, s)
    /\ status_code r <> 200
    /\ success r = false
    /\ (forall pid i p refund,
           refund_paymentId req = Some pid -> pid <> "" ->
           list_find (fun p => Payment.paymentId p = Some pid) (payments s)
           = Some (i, p) ->
           pr (refund_options req pid) = Resolved refund ->
           status_code r = 500).
Proof.
  destruct (processRefund_run pr req s) as (r & Hr & Hs & Hc).
  exists r. split; [done|]. rewrite Hc. split; [|split; [done|]].
  - destruct (refund_paymentId req) as [pid|]; [|done].
    destruct (truthy pid); [|done].
    by destruct (list_find _ (payments s)).
  - intros pid i p d -> Hne Hf _.
    by rewrite (proj2 (truthy_true pid) Hne), Hf.
Qed.

(** ** Reading back *)

(** A collection written through the payment model is never changed by
    the controller. *)
Lemma run_model_collection
    (hmac : string -> string -> string) (stringify : WebhookBody -> string)
    (env : Env) (gw : Razorpay) (inputs : list Input) (s : Store) :
  Forall (fun p => Payment.paymentId p = None) (payments s) ->
  payments (run hmac stringify env gw inputs s) = payments s.
Proof.
  intros HF. apply list_eq_same_length with (List.length (payments s)).
  - done.
  - symmetry. eapply Forall2_length. apply run_same_documents.
  - intros k p' p _ Hp' Hp.
    rewrite Forall_lookup in HF.
    rewrite (run_out_of_reach hmac stringify env gw inputs s k p Hp
               (HF k p Hp)) in Hp'.
    congruence.
Qed.

(** X9. In a collection written through the payment model
    [getPaymentDetails] never answers from the local collection: whatever
    verify calls and webhooks were handled before, the answer is the
    gateway's, 200 when it resolves the payment and 404 when it rejects
    the call, and the store is left as it is. *)
Theorem getPaymentDetails_asks_gateway
    (hmac : string -> string -> string) (stringify : WebhookBody -> string)
    (env : Env) (gw : Razorpay) (inputs : list Input) (s : Store)
    (pid : string) :
  Forall (fun p => Payment.paymentId p = None) (payments s) ->
  getPaymentDetails gw pid (run hmac stringify env gw inputs s)
  = (Returned
       match payments_fetch gw pid with
       | Resolved _ =>
           mkResponse 200 true "Payment details retrieved from Razorpay"
       | Rejected _ => mkResponse 404 false "Payment not found"
       end,
     run hmac stringify env gw inputs s).
Proof.
  intros HF.
  unfold getPaymentDetails, try_catch, bind, Payment_findOne, await.
  rewrite (run_model_collection hmac stringify env gw inputs s HF).
  assert (list_find (fun p => Payment.paymentId p = Some pid) (payments s)
          = None) as ->.
  { apply list_find_None. eapply Forall_impl; [exact HF|].
    intros p Hp. simpl in Hp. congruence. }
  simpl. by destruct (payments_fetch gw pid).
Qed.

(** X9 on the sample installation: after a signed [payment.captured] for
    [pay_XYZ], the details of [pay_XYZ] still come from the gateway. *)
Lemma getPaymentDetails_asks_gateway_witness :
  getPaymentDetails demo_gateway "pay_XYZ"
    (run demo_hmac demo_stringify demo_env demo_gateway
       [Webhook (signed_webhook demo_hmac demo_stringify "whsec"
                   (payment_event "payment.captured" "pay_XYZ"
                                  (Some "order_ABC")))]
       store_failed)
  = (Returned (mkResponse 200 true "Payment details retrieved from Razorpay"),
     run demo_hmac demo_stringify demo_env demo_gateway
       [Webhook (signed_webhook demo_hmac demo_stringify "whsec"
                   (payment_event "payment.captured" "pay_XYZ"
                                  (Some "order_ABC")))]
       store_failed).
Proof.
  apply (getPaymentDetails_asks_gateway
           demo_hmac demo_stringify demo_env demo_gateway
           [Webhook (signed_webhook demo_hmac demo_stringify "whsec"
                       (payment_event "payment.captured" "pay_XYZ"
                                      (Some "order_ABC")))]
           store_failed "pay_XYZ").
  by repeat constructor.
Defined.
(** * The signature checks side by side *)

(** X12. With the key secret configured, the four client-side signature
    checks of the repository ([validatePaymentVerification] of the
    config, [verifyPaymentSignature] of the utils, [verifyRazorpaySignature]
    of the helpers and the model's [verifySignature] on a document with a
    payment id) give the same verdict on every input. *)
Theorem signature_checks_agree
    (hmac : string -> string -> string) (env : Env) (secret : string)
    (orderId paymentId : string) (sig : option string)
    (doc : PaymentModel.t) (s : Store) :
  RAZORPAY_KEY_SECRET env = Some secret ->
  paymentId <> "" ->
  PaymentModel.razorpayOrderId doc = orderId ->
  PaymentModel.razorpayPaymentId doc = Some paymentId ->
  PaymentModel.razorpaySignature doc = sig ->
  verifyPaymentSignature hmac env orderId paymentId sig s
  = validatePaymentVerification hmac env orderId paymentId sig s
  /\ verifyRazorpaySignature hmac env orderId paymentId sig s
     = validatePaymentVerification hmac env orderId paymentId sig s
  /\ PaymentModel.verifySignature hmac (Some secret) doc s
     = validatePaymentVerification hmac env orderId paymentId sig s.
Proof.
  intros Hkey Hne Ho Hp Hs.
  unfold verifyPaymentSignature, verifyRazorpaySignature,
    validatePaymentVerification, PaymentModel.verifySignature,
    try_catch, bind, createHmac, ret.
  rewrite Hkey, Ho, Hp, Hs. simpl.
  by rewrite (proj2 (truthy_true paymentId) Hne).
Qed.

(** X12 on the sample installation. *)
Lemma signature_checks_agree_witness :
  PaymentModel.verifySignature demo_hmac (Some "key_secret")
    (PaymentModel.mk "66f0a1b2c3d4e5f60718293a" 100 "created" None
       "order_ABC" (Some "pay_XYZ") (Some "forged")
       None None None None None None)
    (mkStore [] [])
  = validatePaymentVerification demo_hmac demo_env "order_ABC" "pay_XYZ"
      (Some "forged") (mkStore [] []).
Proof.
  apply (signature_checks_agree demo_hmac demo_env "key_secret"
           "order_ABC" "pay_XYZ" (Some "forged")
           (PaymentModel.mk "66f0a1b2c3d4e5f60718293a" 100 "created" None
              "order_ABC" (Some "pay_XYZ") (Some "forged")
              None None None None None None)
           (mkStore [] []));
    try reflexivity; discriminate.
Defined.

(** X13. Without the key secret in the environment the checks part ways:
    [validatePaymentVerification] and [verifyRazorpaySignature] throw,
    [verifyPaymentSignature] answers [false], and [verifyPayment] answers
    every request that carries its three fields with 500, not 400,
    writing nothing. *)
Theorem signature_checks_without_secret
    (hmac : string -> string -> string) (env : Env) (gw : Razorpay)
    (orderId paymentId : string) (sig : option string)
    (req : VerifyRequest) (s : Store) :
  RAZORPAY_KEY_SECRET env = None ->
  (exists msg,
      validatePaymentVerification hmac env orderId paymentId sig s
      = (Thrown msg, s)
      /\ verifyRazorpaySignature hmac env orderId paymentId sig s
         = (Thrown msg, s))
  /\ verifyPaymentSignature hmac env orderId paymentId sig s
     = (Returned false, s)
  /\ (truthy_opt (razorpay_order_id req) = true ->
      truthy_opt (razorpay_payment_id req) = true ->
      truthy_opt (razorpay_signature req) = true ->
      exists r,
        verifyPayment hmac env gw req s = (Returned r, s)
        /\ status_code r = 500).
Proof.
  intros Hkey. split; [|split].
  - unfold validatePaymentVerification, verifyRazorpaySignature, bind,
      createHmac. rewrite Hkey. eauto.
  - unfold verifyPaymentSignature, try_catch, bind, createHmac.
    by rewrite Hkey.
  - intros Ho Hp Hs.
    unfold verifyPayment, try_catch, bind, validatePaymentVerification,
      createHmac.
    rewrite Ho, Hp, Hs, Hkey. simpl. eauto.
Qed.

(** X13 on an installation without secrets. *)
Lemma signature_checks_without_secret_witness :
  verifyPaymentSignature demo_hmac (mkEnv None None) "order_ABC" "pay_XYZ"
    (Some (demo_hmac "key_secret" "order_ABC|pay_XYZ")) (mkStore [] [])
  = (Returned false, mkStore [] []).
Proof.
  exact (proj1 (proj2 (signature_checks_without_secret
                         demo_hmac (mkEnv None None) demo_gateway
                         "order_ABC" "pay_XYZ"
                         (Some (demo_hmac "key_secret" "order_ABC|pay_XYZ"))
                         (mkVerifyRequest None None None "user_1")
                         (mkStore [] []) eq_refl))).
Defined.

(** X14. The webhook middleware and the webhook handler run the same
    gate: [validateWebhook] hands the request on exactly when the
    signature check of [handleWebhook] passes, and when it answers
    instead, [handleWebhook] answers the same request with the same
    status and writes nothing. *)
Theorem validateWebhook_is_the_gate
    (hmac : string -> string -> string) (stringify : WebhookBody -> string)
    (env : Env) (gw : Razorpay) (req : WebhookRequest) (s : Store) :
  (validateWebhook hmac stringify env req s = (Returned Next, s)
   <-> signature_passes hmac stringify env req)
  /\ (forall r s',
         validateWebhook hmac stringify env req s
         = (Returned (Answered r), s') ->
         s' = s
         /\ exists r',
              handleWebhook hmac stringify env gw req s = (Returned r', s)
              /\ status_code r' = status_code r)
  /\ exists m, validateWebhook hmac stringify env req s = (Returned m, s).
Proof.
  unfold validateWebhook, handleWebhook, try_catch, bind, createHmac, ret.
  destruct (x_razorpay_signature req) as [sig|] eqn:Hsig; simpl.
  2:{ split; [|split; [|eauto]].
      - split; [done|]. intros (k & sg & _ & ? & _). congruence.
      - intros r s' [= <- <-]. eauto. }
  destruct (truthy sig) eqn:Ht; simpl.
  2:{ split; [|split; [|eauto]].
      - split; [done|]. intros (k & sg & _ & Hsg & Hne & _).
        apply truthy_true in Hne. congruence.
      - intros r s' [= <- <-]. eauto. }
  destruct (RAZORPAY_WEBHOOK_SECRET env) as [key|] eqn:Hkey; simpl.
  2:{ split; [|split; [|eauto]].
      - split; [done|]. intros (k & sg & ? & _). congruence.
      - intros r s' [= <- <-]. eauto. }
  destruct (String.eqb_spec (hmac key (stringify (body req))) sig) as [He|He];
    simpl.
  - split; [|split; [|eauto]].
    + split; [|done]. intros _. exists key, sig.
      apply truthy_true in Ht. done.
    + intros r s' [= ]. 
  - split; [|split; [|eauto]].
    + split; [done|]. intros (k & sg & Hk & Hsg & _ & Hm). congruence.
    + intros r s' [= <- <-]. eauto.
Qed.

(** * The payment model's methods *)

Lemma reported_cases (st : string) :
  PaymentModel.reported st = true ->
  st = "captured" \/ st = "authorized" \/ st = "refunded".
Proof.
  unfold PaymentModel.reported. intros H.
  destruct (String.eqb_spec st "captured"); [by left|].
  destruct (String.eqb_spec st "authorized"); [by right; left|].
  destruct (String.eqb_spec st "refunded"); [by right; right|].
  done.
Qed.

(** X15. [updateFromRazorpay] leaves the document in one of the four
    states captured, authorized, refunded and failed, whatever the gateway
    reported (the state created is never written), takes over the
    gateway's payment id, and is idempotent: a second update from the same
    data changes nothing. *)
Theorem updateFromRazorpay_status_and_idempotent
    (d : PaymentModel.PaymentData) (p : PaymentModel.t) :
  let p' := PaymentModel.updateFromRazorpay d p in
  (PaymentModel.status p' = "captured"
   \/ PaymentModel.status p' = "authorized"
   \/ PaymentModel.status p' = "refunded"
   \/ PaymentModel.status p' = "failed")
  /\ (PaymentModel.status p' <> "failed" ->
      PaymentModel.status p' = PaymentModel.data_status d)
  /\ PaymentModel.razorpayPaymentId p' = Some (PaymentModel.data_id d)
  /\ PaymentModel.updateFromRazorpay d p' = p'.
Proof.
  simpl. split; [|split; [|split]].
  - unfold PaymentModel.updateFromRazorpay; simpl.
    destruct (PaymentModel.reported (PaymentModel.data_status d)) eqn:Hr.
    + apply reported_cases in Hr. tauto.
    + tauto.
  - unfold PaymentModel.updateFromRazorpay; simpl.
    by destruct (PaymentModel.reported (PaymentModel.data_status d)).
  - done.
  - unfold PaymentModel.updateFromRazorpay; simpl.
    f_equal.
    + by destruct (PaymentModel.data_card d).
    + by destruct (truthy_opt (PaymentModel.data_vpa d)).
    + by destruct (truthy_opt (PaymentModel.data_wallet d)).
    + by destruct (truthy_opt (PaymentModel.data_bank d)).
    + by destruct (truthy_opt (PaymentModel.error_code d)).
Qed.

(** X16. [updateFromRazorpay] never clears what an earlier update
    recorded: a document updated from a report with an error code and then
    from a report without one keeps the error of the first report, also
    when the second report moves it to captured. *)
Theorem updateFromRazorpay_keeps_stale_error
    (d1 d2 : PaymentModel.PaymentData) (p : PaymentModel.t) :
  truthy_opt (PaymentModel.error_code d1) = true ->
  truthy_opt (PaymentModel.error_code d2) = false ->
  PaymentModel.data_status d2 = "captured" ->
  let p' := PaymentModel.updateFromRazorpay d2
              (PaymentModel.updateFromRazorpay d1 p) in
  PaymentModel.status p' = "captured"
  /\ PaymentModel.error p'
     = Some (PaymentModel.mkError
               (PaymentModel.error_code d1)
               (PaymentModel.error_description d1)
               (PaymentModel.error_source d1)
               (PaymentModel.error_step d1)
               (PaymentModel.error_reason d1)).
Proof.
  intros H1 H2 Hs. simpl.
  unfold PaymentModel.updateFromRazorpay; simpl.
  by rewrite H1, H2, Hs.
Qed.

(** X16 on a payment that fails and is then captured. *)
Lemma updateFromRazorpay_keeps_stale_error_witness :
  let p := PaymentModel.mk "66f0a1b2c3d4e5f60718293a" 100 "created" None
             "order_ABC" None None None None None None None None in
  let failed := PaymentModel.mkPaymentData "pay_XYZ" "failed" (Some "card")
                  None None None None (Some "BAD_REQUEST_ERROR")
                  (Some "Payment failed") None None None in
  let captured := PaymentModel.mkPaymentData "pay_XYZ" "captured"
                    (Some "card") None None None None None None None None
                    None in
  let p' := PaymentModel.updateFromRazorpay captured
              (PaymentModel.updateFromRazorpay failed p) in
  PaymentModel.status p' = "captured"
  /\ PaymentModel.error p'
     = Some (PaymentModel.mkError (Some "BAD_REQUEST_ERROR")
               (Some "Payment failed") None None None).
Proof.
  simpl.
  exact (updateFromRazorpay_keeps_stale_error
           (PaymentModel.mkPaymentData "pay_XYZ" "failed" (Some "card")
              None None None None (Some "BAD_REQUEST_ERROR")
              (Some "Payment failed") None None None)
           (PaymentModel.mkPaymentData "pay_XYZ" "captured"
              (Some "card") None None None None None None None None None)
           (PaymentModel.mk "66f0a1b2c3d4e5f60718293a" 100 "created" None
              "order_ABC" None None None None None None None None)
           eq_refl eq_refl eq_refl).
Defined.

(** X17. The model's [generateReceipt] fixes the receipt once: whatever
    the first call returns is stored on the document, and a later call, at
    any instant, returns that same receipt and leaves the document as it
    is. Only the receipt field is ever written. *)
Theorem generateReceipt_is_stable (now later : N) (p : PaymentModel.t) :
  let '(r, p') := PaymentModel.generateReceipt now p in
  PaymentModel.receipt p' = Some r
  /\ PaymentModel.generateReceipt later p' = (r, p')
  /\ PaymentModel.status p' = PaymentModel.status p
  /\ PaymentModel.amount p' = PaymentModel.amount p
  /\ PaymentModel.razorpayPaymentId p' = PaymentModel.razorpayPaymentId p.
Proof.
  unfold PaymentModel.generateReceipt.
  destruct (truthy_opt (PaymentModel.receipt p)) eqn:Ht; simpl.
  - rewrite Ht. simpl.
    destruct (PaymentModel.receipt p) as [r|]; [done|discriminate].
  - done.
Qed.

(** * The validators *)

(** ** The card number check *)

Lemma remove_separators_app (a b : string) :
  Validators.remove_separators (a +:+ b)
  = Validators.remove_separators a +:+ Validators.remove_separators b.
Proof.
  induction a as [|c a IH]; simpl; [done|].
  destruct (Validators.is_separator c); simpl; by rewrite IH.
Qed.

Lemma all_digits_app (a b : string) :
  Validators.all_digits (a +:+ b)
  = Validators.all_digits a && Validators.all_digits b.
Proof.
  induction a as [|c a IH]; simpl; [done|].
  by rewrite IH, andb_assoc.
Qed.

Lemma string_length_app (a b : string) :
  String.length (a +:+ b) = (String.length a + String.length b)%nat.
Proof. induction a as [|c a IH]; simpl; [done|]. by rewrite IH. Qed.

Lemma list_ascii_of_string_app (a b : string) :
  list_ascii_of_string (a +:+ b)
  = list_ascii_of_string a ++ list_ascii_of_string b.
Proof. induction a as [|c a IH]; simpl; [done|]. by rewrite IH. Qed.

Lemma digit_not_separator (c : ascii) :
  Validators.is_digit c = true -> Validators.is_separator c = false.
Proof.
  unfold Validators.is_digit, Validators.is_separator.
  intros H. apply andb_true_iff in H as [H1 H2].
  apply Z.leb_le in H1, H2.
  repeat (apply orb_false_iff; split);
    try (apply andb_false_iff; right; apply Z.leb_gt; lia);
    apply Z.eqb_neq; lia.
Qed.

Lemma code_inj (c c' : ascii) :
  Validators.code c = Validators.code c' -> c = c'.
Proof.
  unfold Validators.code. intros H. apply N2Z.inj in H.
  rewrite <- (ascii_N_embedding c), <- (ascii_N_embedding c'). by rewrite H.
Qed.

Lemma luhn_fold_sum (l : list ascii) (sum : Z) (double : bool) :
  fold_left Validators.luhn_step l (sum, double)
  = (sum + fst (fold_left Validators.luhn_step l (0, double)),
     snd (fold_left Validators.luhn_step l (0, double))).
Proof.
  revert sum double. induction l as [|c l IH]; intros sum double; simpl.
  - f_equal. lia.
  - rewrite IH. symmetry. rewrite IH. simpl. f_equal. lia.
Qed.

(** The contribution of one digit to the sum. *)
Lemma luhn_step_digit (c c' : ascii) (sum : Z) (double : bool) :
  Validators.is_digit c = true -> Validators.is_digit c' = true ->
  c <> c' ->
  exists d d',
    Validators.luhn_step (sum, double) c = (sum + d, negb double)
    /\ Validators.luhn_step (sum, double) c' = (sum + d', negb double)
    /\ d <> d' /\ -10 < d - d' < 10.
Proof.
  unfold Validators.is_digit. intros H H' Hne.
  apply andb_true_iff in H as [H1 H2], H' as [H1' H2'].
  apply Z.leb_le in H1, H2, H1', H2'.
  assert (Validators.code c <> Validators.code c') as Hc
    by (intros E; by apply Hne, code_inj).
  unfold Validators.luhn_step, Validators.parseInt_digit.
  destruct double.
  - destruct (Z.gtb_spec ((Validators.code c - 48) * 2) 9),
             (Z.gtb_spec ((Validators.code c' - 48) * 2) 9);
      eexists _, _; (split; [reflexivity|split; [reflexivity|lia]]).
  - eexists _, _; (split; [reflexivity|split; [reflexivity|lia]]).
Qed.

(** X18. Blanks and dashes in a card number do not matter to
    [isValidCreditCard]: putting a separator anywhere into a number, or
    taking one out, leaves the verdict as it is; and a number it accepts
    consists, apart from separators, of 13 to 19 decimal digits. *)
Theorem isValidCreditCard_ignores_separators (a b : string) (c : ascii) :
  Validators.is_separator c = true ->
  Validators.isValidCreditCard (a +:+ String c b)
  = Validators.isValidCreditCard (a +:+ b)
  /\ (Validators.isValidCreditCard (a +:+ String c b) = true ->
      Validators.all_digits (Validators.remove_separators (a +:+ b)) = true
      /\ (13 <= String.length (Validators.remove_separators (a +:+ b))
          <= 19)%nat).
Proof.
  intros Hc.
  assert (Validators.remove_separators (a +:+ String c b)
          = Validators.remove_separators (a +:+ b)) as E.
  { rewrite !remove_separators_app. simpl. by rewrite Hc. }
  unfold Validators.isValidCreditCard. rewrite E. split; [done|].
  unfold Validators.only_digits.
  destruct (truthy _); simpl; [|done].
  destruct (Validators.all_digits _); simpl; [|done].
  destruct (Z.ltb_spec
              (Z.of_nat (String.length
                           (Validators.remove_separators (a +:+ b)))) 13);
    simpl; [done|].
  destruct (Z.gtb_spec
              (Z.of_nat (String.length
                           (Validators.remove_separators (a +:+ b)))) 19);
    simpl; [done|].
  intros _. split; [done|lia].
Qed.

(** X18 on a dash in a sixteen-digit number. *)
Lemma isValidCreditCard_ignores_separators_witness :
  Validators.isValidCreditCard "4111-111111111111"
  = Validators.isValidCreditCard "4111111111111111".
Proof.
  exact (proj1 (isValidCreditCard_ignores_separators
                  "4111" "111111111111" "-" eq_refl)).
Defined.

(** X19. [isValidCreditCard] catches every single mistyped digit: when
    it accepts a number, it rejects the number that differs from it in
    one digit, wherever that digit stands and however the number is
    punctuated. *)
Theorem isValidCreditCard_detects_one_wrong_digit
    (a b : string) (c c' : ascii) :
  Validators.is_digit c = true ->
  Validators.is_digit c' = true ->
  c <> c' ->
  Validators.isValidCreditCard (a +:+ String c b) = true ->
  Validators.isValidCreditCard (a +:+ String c' b) = false.
Proof.
  intros Hc Hc' Hne.
  unfold Validators.isValidCreditCard.
  rewrite !remove_separators_app. simpl.
  rewrite (digit_not_separator c Hc), (digit_not_separator c' Hc').
  set (ra := Validators.remove_separators a).
  set (rb := Validators.remove_separators b).
  assert (Validators.only_digits (ra +:+ String c' rb)
          = Validators.only_digits (ra +:+ String c rb)) as ->.
  { unfold Validators.only_digits. rewrite !all_digits_app. simpl.
    rewrite Hc, Hc'. f_equal. by destruct ra. }
  assert (String.length (ra +:+ String c' rb)
          = String.length (ra +:+ String c rb)) as ->.
  { by rewrite !string_length_app. }
  destruct (negb (Validators.only_digits _)); [done|].
  destruct (_ || _); [done|].
  unfold Validators.luhn_sum.
  rewrite !list_ascii_of_string_app. simpl.
  rewrite !rev_app_distr. simpl. rewrite <- !app_assoc. simpl.
  rewrite !fold_left_app. simpl.
  destruct (fold_left Validators.luhn_step
              (rev (list_ascii_of_string rb)) (0, false)) as [s0 d0].
  destruct (luhn_step_digit c c' s0 d0 Hc Hc' Hne)
    as (d & d' & -> & -> & Hd & Hr).
  rewrite (luhn_fold_sum _ (s0 + d)), (luhn_fold_sum _ (s0 + d')). simpl.
  set (k := fst (fold_left Validators.luhn_step
                   (rev (list_ascii_of_string ra)) (0, negb d0))).
  intros H. apply Z.eqb_eq in H. apply Z.eqb_neq. intros H'.
  apply Z.rem_divide in H; [|done]. apply Z.rem_divide in H'; [|done].
  destruct H as [q Hq], H' as [q' Hq']. lia.
Qed.

(** X19 on the test number 4111 1111 1111 1111 with its last digit
    mistyped. *)
Lemma isValidCreditCard_detects_one_wrong_digit_witness :
  Validators.isValidCreditCard "4111 1111 1111 1112" = false.
Proof.
  apply (isValidCreditCard_detects_one_wrong_digit
           "4111 1111 1111 111" "" "1" "2"); try reflexivity.
  discriminate.
Defined.

(** ** The expiry date check *)

Lemma rem_100_below (z : Z) : Z.rem z 100 < 100.
Proof.
  pose proof (Z.rem_bound_abs z 100 ltac:(done)) as H.
  change (Z.abs 100) with 100 in H. lia.
Qed.

(** X20. [isValidExpiryDate] lets through what it cannot read or place:
    at any instant it accepts a month and a year that both fail to parse,
    and it accepts every year of three or more digits with a month from 1
    to 12, so a card dated 01/2020 is never found expired. *)
Theorem isValidExpiryDate_accepts_unreadable_and_long_years
    (parseInt : option string -> option Z -> Validators.number)
    (getMonth getFullYear : Z) (month year : option string) :
  (parseInt month (Some 10) = Validators.NaN
   /\ parseInt year (Some 10) = Validators.NaN)
  \/ (exists m y,
        parseInt month (Some 10) = Validators.Num m
        /\ parseInt year (Some 10) = Validators.Num y
        /\ 1 <= m <= 12 /\ 100 <= y) ->
  Validators.isValidExpiryDate parseInt getMonth getFullYear month year
  = true.
Proof.
  unfold Validators.isValidExpiryDate.
  intros [[-> ->]|(m & y & -> & -> & Hm & Hy)]; simpl; [done|].
  pose proof (rem_100_below getFullYear).
  destruct (Z.ltb_spec m 1); [lia|].
  destruct (Z.ltb_spec 12 m); [lia|]. simpl.
  destruct (Z.ltb_spec y (Z.rem getFullYear 100)); [lia|].
  destruct (Z.eqb_spec y (Z.rem getFullYear 100)); [lia|]. done.
Qed.

(** X20 on the card dated 01/2020, checked in November 2026. *)
Lemma isValidExpiryDate_accepts_unreadable_and_long_years_witness :
  Validators.isValidExpiryDate demo_parseInt 10 2026
    (Some "01") (Some "2020") = true.
Proof.
  apply (isValidExpiryDate_accepts_unreadable_and_long_years
           demo_parseInt 10 2026 (Some "01") (Some "2020")).
  right. exists 1, 2020. repeat split; (reflexivity || lia).
Defined.

(** X21. Within a century, expiry is final: a date that
    [isValidExpiryDate] rejects at one instant is rejected at every later
    instant of the same century. *)
Theorem isValidExpiryDate_rejection_is_final
    (parseInt : option string -> option Z -> Validators.number)
    (getMonth getFullYear getMonth' getFullYear' : Z)
    (month year : option string) :
  0 <= getFullYear ->
  getFullYear / 100 = getFullYear' / 100 ->
  getFullYear < getFullYear'
  \/ (getFullYear = getFullYear' /\ getMonth <= getMonth') ->
  Validators.isValidExpiryDate parseInt getMonth getFullYear month year
  = false ->
  Validators.isValidExpiryDate parseInt getMonth' getFullYear' month year
  = false.
Proof.
  intros H0 Hc Hlater.
  assert (0 <= getFullYear') as H0' by lia.
  unfold Validators.isValidExpiryDate.
  rewrite !Z.rem_mod_nonneg by lia.
  assert (getFullYear mod 100 < getFullYear' mod 100
          \/ (getFullYear mod 100 = getFullYear' mod 100
              /\ getMonth <= getMonth')) as Hm.
  { pose proof (Z.div_mod getFullYear 100 ltac:(done)).
    pose proof (Z.div_mod getFullYear' 100 ltac:(done)).
    destruct Hlater as [?|[-> ?]]; [left; lia|right; done]. }
  set (cy := getFullYear mod 100) in *.
  set (cy' := getFullYear' mod 100) in *.
  destruct (_ || _); [done|].
  destruct (parseInt year (Some 10)) as [|y|neg] eqn:Hy; simpl.
  - done.
  - destruct (Z.ltb_spec y cy); simpl.
    + intros _. destruct (Z.ltb_spec y cy'); [done|lia].
    + destruct (Z.eqb_spec y cy); simpl; [|done].
      destruct (parseInt month (Some 10)) as [|m|negm] eqn:Hmo; simpl;
        try done.
      * destruct (Z.ltb_spec m (getMonth + 1)); [|done]. intros _.
        destruct (Z.ltb_spec y cy'); [done|]. simpl.
        destruct (Z.eqb_spec y cy'); [|lia]. simpl.
        destruct (Z.ltb_spec m (getMonth' + 1)); [done|lia].
      * destruct negm; [|done]. intros _.
        destruct (Z.ltb_spec y cy'); [done|]. simpl.
        destruct (Z.eqb_spec y cy'); [done|lia].
  - by destruct neg.
Qed.

(** X21 on the card dated 12/24, checked in January 2025 and in November
    2026. *)
Lemma isValidExpiryDate_rejection_is_final_witness :
  Validators.isValidExpiryDate demo_parseInt 10 2026
    (Some "12") (Some "24") = false.
Proof.
  apply (isValidExpiryDate_rejection_is_final
           demo_parseInt 0 2025 10 2026 (Some "12") (Some "24"));
    [lia|reflexivity|left; lia|reflexivity].
Defined.

(** ** Pagination *)

(** X22. Whatever the query holds, [validatePagination] returns a page
    of at least 1 and a limit that is an integer from 1 to 100; a limit
    that does not parse, is 0 or is below 1 becomes 10, and a limit above
    100 becomes 100. *)
Theorem validatePagination_bounds
    (parseInt : option string -> option Z -> Validators.number)
    (page limit : option string) :
  let '(p, l) := Validators.validatePagination parseInt page limit in
  Validators.num_lt p (Validators.Num 1) = false
  /\ p <> Validators.NaN
  /\ (exists z, l = Validators.Num z /\ 1 <= z <= 100)
  /\ (Validators.num_truthy (parseInt limit None) = false
      \/ Validators.num_lt (parseInt limit None) (Validators.Num 1) = true ->
      l = Validators.Num 10)
  /\ (Validators.num_lt (Validators.Num 100) (parseInt limit None) = true ->
      l = Validators.Num 100).
Proof.
  unfold Validators.validatePagination.
  destruct (parseInt page None) as [|p|[|]],
           (parseInt limit None) as [|l|[|]]; simpl;
    repeat match goal with
           | |- context [Z.eqb ?a ?b] => destruct (Z.eqb_spec a b); simpl
           | |- context [Z.ltb ?a ?b] => destruct (Z.ltb_spec a b); simpl
           end;
    try lia; repeat apply conj; try done;
    try (eexists; split; [reflexivity|lia]);
    try (intros [?|?]; try done; try lia; f_equal; lia);
    try (intros ?; try done; try lia; f_equal; lia).
Qed.

Lemma Qceiling_div_bounds (total limit : Z) :
  0 < limit ->
  let n := Pagination.Math_ceil (inject_Z total / inject_Z limit)%Q in
  (n - 1) * limit < total <= n * limit.
Proof.
  intros Hl. simpl. unfold Pagination.Math_ceil.
  set (x := (inject_Z total / inject_Z limit)%Q).
  assert (0 < inject_Z limit)%Q as Hlq.
  { change 0%Q with (inject_Z 0). by rewrite <- Zlt_Qlt. }
  assert (x * inject_Z limit == inject_Z total)%Q as Hx.
  { unfold x. field. intros E. rewrite E in Hlq. by apply Qlt_irrefl in Hlq. }
  pose proof (Qle_ceiling x) as Hup.
  pose proof (Qceiling_lt x) as Hlo.
  split.
  - apply (Qmult_lt_r _ _ _ Hlq) in Hlo.
    rewrite Hx, <- inject_Z_mult, <- Zlt_Qlt in Hlo. done.
  - apply (Qmult_le_r _ _ _ Hlq) in Hup.
    rewrite Hx, <- inject_Z_mult, <- Zle_Qle in Hup. done.
Qed.

(** X23. For a positive limit, [createPagination] announces a next page
    exactly when items remain beyond the current page, and its number of
    pages is the least that holds all items. *)
Theorem createPagination_next_page (page limit total : Z) :
  0 < limit ->
  let p := Pagination.createPagination page limit total in
  (Pagination.hasNextPage p = true <-> page * limit < total)
  /\ total <= Pagination.totalPages p * limit
  /\ (forall n, total <= n * limit -> Pagination.totalPages p <= n).
Proof.
  intros Hl. simpl.
  pose proof (Qceiling_div_bounds total limit Hl) as Hb. simpl in Hb.
  set (n := Pagination.Math_ceil (inject_Z total / inject_Z limit)%Q) in *.
  split; [|split].
  - rewrite Z.ltb_lt. split; intros H; nia.
  - lia.
  - intros m Hm. nia.
Qed.

(** X23 on the third page of 25 items, ten to a page. *)
Lemma createPagination_next_page_witness :
  Pagination.hasNextPage (Pagination.createPagination 3 10 25) = true
  <-> 3 * 10 < 25.
Proof.
  exact (proj1 (createPagination_next_page 3 10 25 eq_refl)).
Defined.

(** * The order model's methods *)

(** X24. An order marked paid by [updateOrderAfterPayment] with a
    payment that [updateFromRazorpay] filled in can be refunded by
    [initiateRefund] when it carries a gateway order id: the gateway is
    asked, under the gateway's payment id, for the product of the
    payment's amount and 100 as binary64 arithmetic gives it, and the
    order is saved cancelled with a pending refund exactly when the
    gateway accepts; when it rejects, the method throws, nothing is saved
    and the order in memory keeps its status with the refund marked
    failed. Without a gateway order id the method throws before reading
    the payment. *)
Theorem initiateRefund_after_payment
    (payments : list PaymentModel.t)
    (payments_refund : OrderModel.RefundCall -> option string + string * Z)
    (now : N) (reason st : option string)
    (d : PaymentModel.PaymentData) (pay : PaymentModel.t)
    (order : OrderModel.t) :
  PaymentModel.data_id d <> "" ->
  let pay' := PaymentModel.updateFromRazorpay d pay in
  let order' := OrderModel.updateOrderAfterPayment pay' st order in
  let call :=
    OrderModel.mkRefundCall
      (PaymentModel.data_id d)
      (Number.mul (Number.of_Q (PaymentModel.amount pay)) (Number.of_Z 100))
      (if truthy_opt reason then default "" reason
       else "Customer requested refund")
      (OrderModel._id order) in
  OrderModel.Payment_findById payments (PaymentModel._id pay) = Some pay' ->
  (truthy_opt (OrderModel.razorpayOrderId order) = false ->
   OrderModel.initiateRefund payments payments_refund now reason order'
   = OrderModel.Threw "Cannot refund order without a successful payment"
       order')
  /\ (truthy_opt (OrderModel.razorpayOrderId order) = true ->
      match OrderModel.initiateRefund payments payments_refund now reason
              order' with
      | OrderModel.Saved doc =>
          (exists refund_id paise,
              payments_refund call = inr (refund_id, paise)
              /\ OrderModel.refund doc
                 = Some (OrderModel.mkRefundInfo (Some refund_id)
                           (Some (Number.div (Number.of_Z paise)
                                             (Number.of_Z 100)))
                           (Some "pending")
                           (Some (OrderModel.notes_reason call))
                           (Some now)))
          /\ OrderModel.status doc = "cancelled"
          /\ OrderModel.payment doc = Some (PaymentModel._id pay)
          /\ OrderModel.paymentAttempts doc
             = OrderModel.paymentAttempts order ++ [PaymentModel._id pay]
      | OrderModel.Threw message this =>
          (exists m,
              payments_refund call = inl m
              /\ message = "Refund failed: " +:+ default "undefined" m)
          /\ OrderModel.status this = default "processing" st
          /\ (OrderModel.refund this ≫= OrderModel.info_status)
             = Some "failed"
      end).
Proof.
  intros Hid pay' order' call Hfind.
  unfold OrderModel.initiateRefund. simpl.
  split; [by intros ->|]. intros ->. simpl.
  rewrite Hfind. simpl.
  rewrite (proj2 (truthy_true _) Hid). simpl.
  fold call.
  destruct (payments_refund call) as [m|[refund_id paise]] eqn:Hcall.
  - split; [by exists m|]. done.
  - split; [by exists refund_id, paise|]. done.
Qed.

(** X24 on an order paid with a captured payment, the gateway accepting
    the refund. *)
Lemma initiateRefund_after_payment_witness :
  let pay := PaymentModel.mk "66f0a1b2c3d4e5f60718293a" 100 "created" None
               "order_ABC" None None None None None None None None in
  let d := PaymentModel.mkPaymentData "pay_XYZ" "captured" (Some "upi")
             None (Some "a@okbank") None None None None None None None in
  let order := OrderModel.mk "66f0a1b2c3d4e5f607182900" "pending"
                 (Some "order_ABC") [] None None in
  match OrderModel.initiateRefund
          [PaymentModel.updateFromRazorpay d pay]
          (fun call => inr ("rfnd_1", 10000)) 1790000000000 None
          (OrderModel.updateOrderAfterPayment
             (PaymentModel.updateFromRazorpay d pay) None order) with
  | OrderModel.Saved doc => OrderModel.status doc = "cancelled"
  | OrderModel.Threw _ _ => False
  end.
Proof.
  intros pay d order.
  pose proof (proj2 (initiateRefund_after_payment
                [PaymentModel.updateFromRazorpay d pay]
                (fun call => inr ("rfnd_1", 10000)) 1790000000000%N None None
                d pay order ltac:(discriminate) eq_refl) eq_refl) as H.
  destruct (OrderModel.initiateRefund _ _ _ _ _) as [doc|message this].
  - exact (proj1 (proj2 H)).
  - destruct H as [[m [Hm _]] _]. discriminate Hm.
Defined.
